(** * Supabase MCP server: query translator and tool adapter

    A shallow embedding of [supabase_client.py] (class [SupabaseClient], the
    query translator) and [server.py] (the four FastMCP tools), with the
    properties of the specification proved about it.

    Python values are modelled as follows.
    - [str] is [string]; [str.lower] acts on the ASCII letters.
    - [int] is [Z]; [Optional[int]] is [option Z].
    - a [dict] whose iteration order matters (filters, order_by, updates, a
      record) is an association list in insertion order; a [dict] that is only
      looked up (the result envelope, the process environment, the tables of
      the reference backend) is a [gmap].
    - a call that may raise is an [outcome]; a call that talks to the backend
      threads the backend state explicitly. *)

From Stdlib Require Import ZArith List Ascii Sorted Permutation.
From stdpp Require Import gmap strings list fin_maps.

(** ** Python values *)

Inductive value :=
| VNull
| VBool (b : bool)
| VInt (n : Z)
| VStr (s : string).

#[global] Instance value_eq_dec : EqDecision value.
Proof. solve_decision. Defined.

(** A record (one row): column name to value, in column order. *)
Abbreviation record := (list (string * value)).

(** A [Dict[str, V]] in insertion order. *)
Abbreviation dict V := (list (string * V)).

Fixpoint dict_get {V} (k : string) (d : dict V) : option V :=
  match d with
  | [] => None
  | (k', v) :: d' => if decide (k = k') then Some v else dict_get k d'
  end.

(** [d[k] = v]: overwrite in place, or append a new key. *)
Fixpoint dict_set {V} (k : string) (v : V) (d : dict V) : dict V :=
  match d with
  | [] => [(k, v)]
  | (k', v') :: d' =>
      if decide (k = k') then (k, v) :: d' else (k', v') :: dict_set k v d'
  end.

(** Truthiness, as used by [if filters:], [if limit:] and [not self.url]. *)
Definition truthy_dict {V} (d : option (dict V)) : bool :=
  match d with
  | Some (_ :: _) => true
  | _ => false
  end.

Definition truthy_int (n : option Z) : bool :=
  match n with
  | Some n => negb (n =? 0)%Z
  | None => false
  end.

Definition truthy_str (s : option string) : bool :=
  match s with
  | Some (String _ _) => true
  | _ => false
  end.

(** [d.items()] once [d] is known to be truthy; [None] has no items. *)
Definition items {V} (d : option (dict V)) : dict V := default [] d.

(** [str.lower] on ASCII: 'A'..'Z' (65..90) move to 'a'..'z'.  The bytes of
    a character outside ASCII stay as they are; no such character lowers to
    one of the letters a, s, c, so the test [direction.lower() == "asc"] is
    not affected. *)
Definition lower_ascii (a : ascii) : ascii :=
  let n := nat_of_ascii a in
  if Nat.leb 65 n && Nat.leb n 90 then ascii_of_nat (n + 32) else a.

Fixpoint lower (s : string) : string :=
  match s with
  | EmptyString => EmptyString
  | String a s' => String (lower_ascii a) (lower s')
  end.

(** ** Exceptions and outcomes *)

(** A raised object: an instance of [Exception] (what [except Exception]
    catches) or of [BaseException] outside [Exception] ([KeyboardInterrupt],
    [SystemExit]), which [except Exception] lets through.  [msg] is what
    [str(e)] gives. *)
Inductive exn :=
| Exception (cls : string) (msg : string)
| BaseException (cls : string) (msg : string).

Definition str (e : exn) : string :=
  match e with
  | Exception _ msg => msg
  | BaseException _ msg => msg
  end.

Definition isinstance_Exception (e : exn) : bool :=
  match e with
  | Exception _ _ => true
  | BaseException _ _ => false
  end.

Inductive outcome (A : Type) :=
| Return (a : A)
| Raise (e : exn).
Arguments Return {A} a.
Arguments Raise {A} e.

(** Sequencing: a raise in [m] skips the rest. *)
#[global] Instance outcome_bind : MBind outcome := fun A C k m =>
  match m with
  | Return a => k a
  | Raise e => Raise e
  end.

(** ** The query builder of the backend client

    What [self.client.table(t)] and the chained calls build: the table and the
    calls made on the builder, in the order they were made. *)

Inductive payload :=
| One (r : record)
| Many (rs : list record).

Inductive call :=
| Select (columns : string)
| Insert (records : payload)
| Update (updates : record)
| Delete
| Eq (column : string) (v : value)
| Order (column : string) (desc : bool)
| Limit (n : Z)
| Offset (n : Z).

Record query := { q_table : string; q_calls : list call }.

Record APIResponse := { data : list record; count : option Z }.

(** The client object: the one operation that reaches the backend.  [B] is
    the state of the backend. *)
Record Client (B : Type) :=
  { execute : query -> B -> outcome APIResponse * B }.
Arguments execute {B} _ _ _.

(** The four operations of the builder, as opposed to its filters and
    modifiers. *)
Definition is_verb (c : call) : bool :=
  match c with
  | Select _ | Insert _ | Update _ | Delete => true
  | _ => false
  end.

Module Builder.

Definition call_on (q : query) (c : call) : query :=
  {| q_table := q_table q; q_calls := q_calls q ++ [c] |}.

Definition table (name : string) : query :=
  {| q_table := name; q_calls := [] |}.

Definition select (q : query) (columns : string) : query :=
  call_on q (Select columns).

Definition insert (q : query) (records : payload) : query :=
  call_on q (Insert records).

Definition update (q : query) (updates : record) : query :=
  call_on q (Update updates).

Definition delete (q : query) : query := call_on q Delete.

Definition eq (q : query) (column : string) (v : value) : query :=
  call_on q (Eq column v).

(** [order(column, desc=False)] *)
Definition order (q : query) (column : string) (desc : bool) : query :=
  call_on q (Order column desc).

Definition limit (q : query) (n : Z) : query := call_on q (Limit n).

Definition offset (q : query) (n : Z) : query := call_on q (Offset n).

(** The builder that [table] returns has the four operations only; [eq],
    [order], [limit] and [offset] are methods of what an operation returns,
    which in turn has no operation left to call.  A query on which no
    operation was called yet is the former kind of object. *)
Definition has_operation (q : query) : bool := existsb is_verb (q_calls q).

(** What Python raises for a method the object does not have. *)
Definition attribute_error (class attr : string) : exn :=
  Exception "AttributeError"
    ("'" +:+ class +:+ "' object has no attribute '" +:+ attr +:+ "'").

(** [query.eq(column, value)] where [query] may be either kind of builder. *)
Definition getattr_eq (q : query) (column : string) (v : value)
  : outcome query :=
  if has_operation q then Return (eq q column v)
  else Raise (attribute_error "SyncRequestBuilder" "eq").

(** [query.update(updates)], likewise. *)
Definition getattr_update (q : query) (updates : record) : outcome query :=
  if has_operation q
  then Raise (attribute_error "SyncFilterRequestBuilder" "update")
  else Return (update q updates).

(** [query.delete()], likewise. *)
Definition getattr_delete (q : query) : outcome query :=
  if has_operation q
  then Raise (attribute_error "SyncFilterRequestBuilder" "delete")
  else Return (delete q).

End Builder.

(** ** supabase_client.py *)

Module SupabaseClient.

Record t (B : Type) :=
  { url : string; key : string; client : Client B }.
Arguments url {B} _.
Arguments key {B} _.
Arguments client {B} _.

Definition missing_credentials : string :=
  "Missing required environment variables: " +:+
  "SUPABASE_URL and SUPABASE_SERVICE_ROLE_KEY must be set".

Definition os_getenv (environ : gmap string string) (name : string)
  : option string :=
  environ !! name.

(** [__init__]: [create_client] is the constructor of the backend SDK. *)
Definition __init__ {B} (create_client : string -> string -> outcome (Client B))
    (environ : gmap string string) : outcome (t B) :=
  let url := os_getenv environ "SUPABASE_URL" in
  let key := os_getenv environ "SUPABASE_SERVICE_ROLE_KEY" in
  if negb (truthy_str url) || negb (truthy_str key) then
    Raise (Exception "ValueError" missing_credentials)
  else
    c ← create_client (default "" url) (default "" key);
    Return {| url := default "" url; key := default "" key; client := c |}.

(** The query composed by [read_records] before [execute].  Its filters and
    modifiers are called on what [select] returns, which has them. *)
Definition read_query (table columns : string)
    (filters : option (dict value)) (limit offset : option Z)
    (order_by : option (dict string)) : query :=
  let query := Builder.select (Builder.table table) columns in
  let query :=
    if truthy_dict filters then
      fold_left (fun query '(column, value) => Builder.eq query column value)
                (items filters) query
    else query in
  let query :=
    if truthy_dict order_by then
      fold_left (fun query '(column, direction) =>
                   if decide (lower direction = "asc")
                   then Builder.order query column false
                   else Builder.order query column true)
                (items order_by) query
    else query in
  let query :=
    match limit with
    | Some n => if truthy_int limit then Builder.limit query n else query
    | None => query
    end in
  let query :=
    match offset with
    | Some n => if truthy_int offset then Builder.offset query n else query
    | None => query
    end in
  query.

Definition create_query (table : string) (records : payload) : query :=
  Builder.insert (Builder.table table) records.

(** The loop [for column, value in filters.items(): query = query.eq(column,
    value)] of [update_records] and [delete_records], where [query] starts as
    what [table] returns: the first turn that raises ends the loop. *)
Fixpoint eq_each (filters : dict value) (builder : query) : outcome query :=
  match filters with
  | [] => Return builder
  | (column, value) :: rest =>
      builder ← Builder.getattr_eq builder column value;
      eq_each rest builder
  end.

(** The query composed by [update_records] before [execute], or the
    exception raised on the way. *)
Definition update_query (table : string) (updates : record)
    (filters : dict value) : outcome query :=
  let query := Builder.table table in
  query ← eq_each filters query;
  Builder.getattr_update query updates.

Definition delete_query (table : string) (filters : dict value)
  : outcome query :=
  let query := Builder.table table in
  query ← eq_each filters query;
  Builder.getattr_delete query.

(** [response = query.execute(); return response.data] *)
Definition run {B} (self : t B) (q : query) (s : B)
  : outcome (list record) * B :=
  match execute (client self) q s with
  | (Return response, s') => (Return (data response), s')
  | (Raise e, s') => (Raise e, s')
  end.

Section Methods.
Context {B : Type} (self : t B).

Definition read_records (table columns : string)
    (filters : option (dict value)) (limit offset : option Z)
    (order_by : option (dict string)) : B -> outcome (list record) * B :=
  run self (read_query table columns filters limit offset order_by).

Definition create_records (table : string) (records : payload)
  : B -> outcome (list record) * B :=
  run self (create_query table records).

Definition update_records (table : string) (updates : record)
    (filters : dict value) (s : B) : outcome (list record) * B :=
  match update_query table updates filters with
  | Return query => run self query s
  | Raise e => (Raise e, s)
  end.

Definition delete_records (table : string) (filters : dict value) (s : B)
  : outcome (list record) * B :=
  match delete_query table filters with
  | Return query => run self query s
  | Raise e => (Raise e, s)
  end.
End Methods.

End SupabaseClient.

(** ** server.py *)

(** What the values of a result envelope can be: a message or the rows. *)
Inductive pyval :=
| PStr (s : string)
| PList (rs : list record).

Module Server.

(** The FastMCP object, as far as this module uses it: the registered
    tools, in registration order. *)
Record FastMCP := { name : string; tools : list string }.

(** The decorator [@mcp.tool] on a function named [f]. *)
Definition tool (mcp : FastMCP) (f : string) : FastMCP :=
  {| name := name mcp; tools := tools mcp ++ [f] |}.

Section Tools.
Context {B : Type} (supabase : SupabaseClient.t B).

Definition read_records (table columns : string)
    (filters : option (dict value)) (limit offset : option Z)
    (order_by : option (dict string)) (s : B)
  : outcome (gmap string pyval) * B :=
  match SupabaseClient.read_records supabase table columns filters
          limit offset order_by s with
  | (Return records, s') => (Return {[ "records" := PList records ]}, s')
  | (Raise e, s') =>
      if isinstance_Exception e
      then (Return {[ "error" := PStr (str e); "records" := PList [] ]}, s')
      else (Raise e, s')
  end.

Definition create_records (table : string) (records : payload) (s : B)
  : outcome (gmap string pyval) * B :=
  match SupabaseClient.create_records supabase table records s with
  | (Return created, s') => (Return {[ "records" := PList created ]}, s')
  | (Raise e, s') =>
      if isinstance_Exception e
      then (Return {[ "error" := PStr (str e); "records" := PList [] ]}, s')
      else (Raise e, s')
  end.

Definition update_records (table : string) (updates : record)
    (filters : dict value) (s : B) : outcome (gmap string pyval) * B :=
  match SupabaseClient.update_records supabase table updates filters s with
  | (Return updated, s') => (Return {[ "records" := PList updated ]}, s')
  | (Raise e, s') =>
      if isinstance_Exception e
      then (Return {[ "error" := PStr (str e); "records" := PList [] ]}, s')
      else (Raise e, s')
  end.

Definition delete_records (table : string) (filters : dict value) (s : B)
  : outcome (gmap string pyval) * B :=
  match SupabaseClient.delete_records supabase table filters s with
  | (Return deleted, s') => (Return {[ "records" := PList deleted ]}, s')
  | (Raise e, s') =>
      if isinstance_Exception e
      then (Return {[ "error" := PStr (str e); "records" := PList [] ]}, s')
      else (Raise e, s')
  end.
End Tools.

(** The module body, run once at import: lines 18 and 21, then the four
    decorated definitions. *)
Record module_state (B : Type) :=
  { mcp : FastMCP; supabase : SupabaseClient.t B }.
Arguments mcp {B} _.
Arguments supabase {B} _.

Definition module_body {B}
    (create_client : string -> string -> outcome (Client B))
    (environ : gmap string string) : outcome (module_state B) :=
  let mcp := {| name := "supabase-mcp"; tools := [] |} in
  supabase ← SupabaseClient.__init__ create_client environ;
  let mcp := tool mcp "read_records" in
  let mcp := tool mcp "create_records" in
  let mcp := tool mcp "update_records" in
  let mcp := tool mcp "delete_records" in
  Return {| mcp := mcp; supabase := supabase |}.

(** A tool call as the protocol runtime delivers it; [columns] left out
    takes its declared default ["*"]. *)
Inductive invocation :=
| ReadRecords (table : string) (columns : option string)
    (filters : option (dict value)) (limit offset : option Z)
    (order_by : option (dict string))
| CreateRecords (table : string) (records : payload)
| UpdateRecords (table : string) (updates : record) (filters : dict value)
| DeleteRecords (table : string) (filters : dict value).

Definition tool_name (i : invocation) : string :=
  match i with
  | ReadRecords _ _ _ _ _ _ => "read_records"
  | CreateRecords _ _ => "create_records"
  | UpdateRecords _ _ _ => "update_records"
  | DeleteRecords _ _ => "delete_records"
  end.

Section Dispatch.
Context {B : Type} (supabase : SupabaseClient.t B).

(** The tool function the runtime runs for an invocation. *)
Definition call_tool (i : invocation) : B -> outcome (gmap string pyval) * B :=
  match i with
  | ReadRecords table columns filters limit offset order_by =>
      read_records supabase table (default "*" columns) filters
        limit offset order_by
  | CreateRecords table records => create_records supabase table records
  | UpdateRecords table updates filters =>
      update_records supabase table updates filters
  | DeleteRecords table filters => delete_records supabase table filters
  end.

(** The translator call made inside that tool's [try]. *)
Definition translator_call (i : invocation) : B -> outcome (list record) * B :=
  match i with
  | ReadRecords table columns filters limit offset order_by =>
      SupabaseClient.read_records supabase table (default "*" columns)
        filters limit offset order_by
  | CreateRecords table records =>
      SupabaseClient.create_records supabase table records
  | UpdateRecords table updates filters =>
      SupabaseClient.update_records supabase table updates filters
  | DeleteRecords table filters =>
      SupabaseClient.delete_records supabase table filters
  end.
End Dispatch.

End Server.

(** ** Reading a composed query *)

Definition verb_of (cs : list call) : option call := List.find is_verb cs.

Definition eq_calls (cs : list call) : dict value :=
  omap (fun c => match c with Eq column v => Some (column, v) | _ => None end) cs.

Definition order_calls (cs : list call) : list (string * bool) :=
  omap (fun c => match c with Order column desc => Some (column, desc) | _ => None end) cs.

Definition limit_calls (cs : list call) : list Z :=
  omap (fun c => match c with Limit n => Some n | _ => None end) cs.

Definition offset_calls (cs : list call) : list Z :=
  omap (fun c => match c with Offset n => Some n | _ => None end) cs.

(** ** A reference backend

    Modelled from the spec: the backend behind the query-builder interface
    (the supabase SDK and the remote service are not part of this
    repository).  One table is a list of rows; equality filters are
    conjunctive; sort clauses apply in the order given, the first one being
    the major key; offset skips and limit caps; insert returns the stored
    rows, update the rows after the change, delete the rows removed.  What
    depends on the schema of a deployment is a parameter: the order [le] of
    the column values, the fields the backend assigns on insert and the
    constraint check. *)

(** Modelled from the spec: the state of the remote service, the rows of
    each table, together with the requests it has received. *)
Record db := { tables : gmap string (list record); requests : list query }.

Definition cell (r : record) (column : string) : value :=
  default VNull (dict_get column r).

Definition row_has (column : string) (v : value) (r : record) : bool :=
  bool_decide (dict_get column r = Some v).

Definition matches (filters : dict value) (r : record) : bool :=
  forallb (fun '(column, v) => row_has column v r) filters.

Fixpoint split_on (sep : ascii) (s : string) : list string :=
  match s with
  | EmptyString => [EmptyString]
  | String a s' =>
      if decide (a = sep) then EmptyString :: split_on sep s'
      else match split_on sep s' with
           | [] => [String a EmptyString]
           | w :: ws => String a w :: ws
           end
  end.

(** The column selector: ["*"] keeps the row, a comma-separated list keeps
    the named columns. *)
Definition project (columns : string) (r : record) : record :=
  let names := split_on "," columns in
  if bool_decide ("*" ∈ names) then r
  else List.filter (fun '(k, _) => bool_decide (k ∈ names)) r.

Definition window (limit offset : option Z) (rows : list record) : list record :=
  let rows := match offset with
              | Some n => drop (Z.to_nat n) rows
              | None => rows
              end in
  match limit with
  | Some n => take (Z.to_nat n) rows
  | None => rows
  end.

Definition apply_updates (updates : record) (r : record) : record :=
  fold_left (fun r '(k, v) => dict_set k v r) updates r.

Definition rows_of (p : payload) : list record :=
  match p with
  | One r => [r]
  | Many rs => rs
  end.

Fixpoint insert_row (leb : record -> record -> bool) (r : record)
    (l : list record) : list record :=
  match l with
  | [] => [r]
  | x :: l' => if leb r x then r :: x :: l' else x :: insert_row leb r l'
  end.

(** Stable insertion sort. *)
Definition sort_rows (leb : record -> record -> bool) (l : list record)
  : list record :=
  foldr (insert_row leb) [] l.

Section ReferenceBackend.
Variable le : value -> value -> bool.
Variable assign : string -> list record -> record -> record.
Variable violation : string -> list record -> record -> option string.

(** Lexicographic comparison under a list of sort clauses. *)
Fixpoint row_leb (orders : list (string * bool)) (r1 r2 : record) : bool :=
  match orders with
  | [] => true
  | (column, desc) :: rest =>
      let x := if desc : bool then cell r2 column else cell r1 column in
      let y := if desc : bool then cell r1 column else cell r2 column in
      if le x y then (if le y x then row_leb rest r1 r2 else true) else false
  end.

(** All rows of a batch are stored, or none. *)
Fixpoint store (table : string) (existing new : list record)
  : outcome (list record) :=
  match new with
  | [] => Return []
  | r :: rest =>
      match violation table existing r with
      | Some msg => Raise (Exception "APIError" msg)
      | None =>
          let r' := assign table existing r in
          stored ← store table (existing ++ [r']) rest;
          Return (r' :: stored)
      end
  end.

Definition respond (rows : list record) : outcome APIResponse :=
  Return {| data := rows; count := None |}.

Definition api_error (msg : string) : outcome APIResponse :=
  Raise (Exception "APIError" msg).

Definition negative (n : option Z) : bool :=
  match n with
  | Some n => (n <? 0)%Z
  | None => false
  end.

(** Modelled from the spec: [execute] of the backend client, one request to
    the service.  A query on an unknown table, without an operation or with
    a negative limit or offset is refused. *)
Definition ref_execute (q : query) (s : db) : outcome APIResponse * db :=
  let cs := q_calls q in
  let logged := requests s ++ [q] in
  let unchanged := {| tables := tables s; requests := logged |} in
  match tables s !! q_table q with
  | None => (api_error ("relation does not exist: " +:+ q_table q), unchanged)
  | Some rows =>
      let hit := matches (eq_calls cs) in
      match verb_of cs with
      | Some (Select columns) =>
          let limit := last (limit_calls cs) in
          let offset := last (offset_calls cs) in
          if negative limit || negative offset then
            (api_error "range not satisfiable", unchanged)
          else
            let sorted := sort_rows (row_leb (order_calls cs))
                                    (List.filter hit rows) in
            (respond (map (project columns) (window limit offset sorted)),
             unchanged)
      | Some (Insert p) =>
          match store (q_table q) rows (rows_of p) with
          | Return stored =>
              (respond stored,
               {| tables := <[q_table q := rows ++ stored]> (tables s);
                  requests := logged |})
          | Raise e => (Raise e, unchanged)
          end
      | Some (Update updates) =>
          (respond (map (apply_updates updates) (List.filter hit rows)),
           {| tables :=
                <[q_table q :=
                    map (fun r => if hit r then apply_updates updates r else r)
                        rows]> (tables s);
              requests := logged |})
      | Some Delete =>
          (respond (List.filter hit rows),
           {| tables :=
                <[q_table q := List.filter (fun r => negb (hit r)) rows]>
                  (tables s);
              requests := logged |})
      | _ => (api_error "no operation on the query", unchanged)
      end
  end.

Definition ref_client : Client db := {| execute := ref_execute |}.

Definition ref_supabase : SupabaseClient.t db :=
  {| SupabaseClient.url := "https://ref.supabase.co";
     SupabaseClient.key := "service-role-key";
     SupabaseClient.client := ref_client |}.

End ReferenceBackend.

(** ** Case-insensitive comparison, stated without [lower] *)

(** Two characters are the same letter when they are equal or are the upper
    and lower case of one ASCII letter. *)
Definition same_letter (a b : ascii) : bool :=
  let m := nat_of_ascii a in
  let n := nat_of_ascii b in
  Nat.eqb m n
  || (Nat.leb 65 m && Nat.leb m 90 && Nat.eqb (m + 32) n)
  || (Nat.leb 65 n && Nat.leb n 90 && Nat.eqb (n + 32) m).

Fixpoint equal_ignoring_case (s t : string) : bool :=
  match s, t with
  | EmptyString, EmptyString => true
  | String a s', String b t' => same_letter a b && equal_ignoring_case s' t'
  | _, _ => false
  end.

(** ** A small deployment used in the examples *)

Module Example.

Definition zkey (v : value) : Z :=
  match v with
  | VInt n => n
  | _ => 0%Z
  end.

(** Cells compared as integers. *)
Definition le_int (a b : value) : bool := (zkey a <=? zkey b)%Z.

(** The backend gives a row without ["id"] the next serial number. *)
Definition assign_id (_ : string) (existing : list record) (r : record)
  : record :=
  match dict_get "id" r with
  | Some _ => r
  | None => ("id", VInt (Z.of_nat (length existing) + 1)) :: r
  end.

(** A row must carry a ["name"]. *)
Definition name_required (_ : string) (_ : list record) (r : record)
  : option string :=
  match dict_get "name" r with
  | Some _ => None
  | None => Some "null value in column name violates not-null constraint"
  end.

Definition supabase : SupabaseClient.t db :=
  ref_supabase le_int assign_id name_required.

Definition user (i : Z) (name : string) (t : Z) : record :=
  [("id", VInt i); ("name", VStr name); ("created_at", VInt t)].

Definition users : list record :=
  [user 1 "Alice" 10; user 2 "Bob" 30; user 3 "Carol" 20].

Definition db0 : db :=
  {| tables := {[ "users" := users ]}; requests := [] |}.

Definition create_client (u k : string) : outcome (Client db) :=
  Return (ref_client le_int assign_id name_required).

End Example.

(** ** The calls a query is expected to consist of *)

Definition eq_call (f : string * value) : call := Eq f.1 f.2.

Definition order_call (o : string * string) : call :=
  Order o.1 (negb (equal_ignoring_case o.2 "asc")).

Definition limit_part (limit : option Z) : list call :=
  match limit with
  | Some n => if (n =? 0)%Z then [] else [Limit n]
  | None => []
  end.

Definition offset_part (offset : option Z) : list call :=
  match offset with
  | Some n => if (n =? 0)%Z then [] else [Offset n]
  | None => []
  end.


(** ** Orders given by a boolean comparison *)

Definition leb_total {A} (leb : A -> A -> bool) : Prop :=
  forall a b, leb a b = true \/ leb b a = true.

Definition leb_trans {A} (leb : A -> A -> bool) : Prop :=
  forall a b c, leb a b = true -> leb b c = true -> leb a c = true.

Definition ordered {A} (leb : A -> A -> bool) (a b : A) : Prop :=
  leb a b = true.

(** What [if limit:] and [if offset:] let through to the builder. *)
Definition effective (n : option Z) : option Z :=
  if truthy_int n then n else None.

(** The sort clauses [read_records] is expected to produce for [order_by]. *)
Definition read_orders (order_by : option (dict string)) : list (string * bool) :=
  map (fun o => (o.1, negb (equal_ignoring_case o.2 "asc"))) (items order_by).

(** The state of the reference backend after a request that changes no
    table. *)
Definition logged (q : query) (s : db) : db :=
  {| tables := tables s; requests := requests s ++ [q] |}.

(** Rows in non-decreasing, respectively non-increasing, order of a column:
    every row is at most, respectively at least, every later row. *)
Definition non_decreasing (le : value -> value -> bool) (column : string)
    (rows : list record) : Prop :=
  StronglySorted (fun r1 r2 => le (cell r1 column) (cell r2 column) = true) rows.

Definition non_increasing (le : value -> value -> bool) (column : string)
    (rows : list record) : Prop :=
  StronglySorted (fun r1 r2 => le (cell r2 column) (cell r1 column) = true) rows.

(** The number of records a create payload carries. *)
Definition batch_size (p : payload) : nat :=
  match p with
  | One _ => 1
  | Many rs => length rs
  end.

(** The calls that change the backend. *)
Definition is_mutation (c : call) : bool :=
  match c with
  | Insert _ | Update _ | Delete => true
  | _ => false
  end.

(** ** Observing the requests of a client *)

(** A client that does what [c] does and also records, in order, the
    queries it was asked to execute. *)
Definition recording {B} (c : Client B) : Client (list query * B) :=
  {| execute := fun q st =>
       match execute c q st.2 with
       | (r, s') => (r, (st.1 ++ [q], s'))
       end |}.

Definition with_client {B B'} (self : SupabaseClient.t B) (c : Client B')
  : SupabaseClient.t B' :=
  {| SupabaseClient.url := SupabaseClient.url self;
     SupabaseClient.key := SupabaseClient.key self;
     SupabaseClient.client := c |}.

(** The query a tool invocation composes, or the exception raised while
    composing it. *)
Definition query_of (i : Server.invocation) : outcome query :=
  match i with
  | Server.ReadRecords table columns filters limit offset order_by =>
      Return (SupabaseClient.read_query table (default "*" columns) filters
                limit offset order_by)
  | Server.CreateRecords table records =>
      Return (SupabaseClient.create_query table records)
  | Server.UpdateRecords table updates filters =>
      SupabaseClient.update_query table updates filters
  | Server.DeleteRecords table filters =>
      SupabaseClient.delete_query table filters
  end.

(** The requests a tool invocation is expected to send: its query, or none
    when composing the query raises. *)
Definition requests_of (i : Server.invocation) : list query :=
  match query_of i with
  | Return q => [q]
  | Raise _ => []
  end.

(** What [eq] on the builder of [table] raises. *)
Definition no_eq_on_table : exn :=
  Builder.attribute_error "SyncRequestBuilder" "eq".

(** The calls that only a read makes. *)
Definition is_read_only_call (c : call) : bool :=
  match c with
  | Select _ | Order _ _ | Limit _ | Offset _ => true
  | _ => false
  end.

(** The spellings of a direction that differ from ["asc"] by case only. *)
Definition asc_spellings : list string :=
  ["asc"; "asC"; "aSc"; "aSC"; "Asc"; "AsC"; "ASc"; "ASC"].

(** The number of rows a read is expected to return out of [matching] rows
    that pass the filters. *)
Definition expected_count (limit offset : option Z) (matching : nat) : nat :=
  let available := matching - Z.to_nat (default 0%Z offset) in
  match limit with
  | Some n => if (n =? 0)%Z then available else Nat.min (Z.to_nat n) available
  | None => available
  end.

(** ** Clients that fail, used in the examples *)

Module Faulty.

(** An SDK constructor that refuses the credentials. *)
Definition create_client (u k : string) : outcome (Client db) :=
  Raise (Exception "SupabaseException" "Invalid API key").

(** A client whose request is interrupted from the keyboard. *)
Definition interrupted : Client db :=
  {| execute := fun q s => (Raise (BaseException "KeyboardInterrupt" ""), s) |}.

Definition supabase : SupabaseClient.t db :=
  with_client Example.supabase interrupted.

(** An SDK constructor that accepts only a URL starting with ["http"]. *)
Definition checking_create_client (u k : string) : outcome (Client db) :=
  if String.prefix "http" u
  then Return (ref_client Example.le_int Example.assign_id
                 Example.name_required)
  else Raise (Exception "SupabaseException" "Invalid URL").

(** An environment that sets both credentials, to a blank. *)
Definition blank_environ : gmap string string :=
  {[ "SUPABASE_URL" := " "; "SUPABASE_SERVICE_ROLE_KEY" := " " ]}.

End Faulty.

(** * Properties *)

(** ** The shape of the composed queries *)

Lemma lower_ascii_a (x : ascii) :
  lower_ascii x = "a"%char <-> same_letter x "a" = true.
Proof.
  destruct x as [[] [] [] [] [] [] [] []]; vm_compute; split; congruence.
Qed.

Lemma lower_ascii_s (x : ascii) :
  lower_ascii x = "s"%char <-> same_letter x "s" = true.
Proof.
  destruct x as [[] [] [] [] [] [] [] []]; vm_compute; split; congruence.
Qed.

Lemma lower_ascii_c (x : ascii) :
  lower_ascii x = "c"%char <-> same_letter x "c" = true.
Proof.
  destruct x as [[] [] [] [] [] [] [] []]; vm_compute; split; congruence.
Qed.

Lemma lower_asc (d : string) :
  lower d = "asc" <-> equal_ignoring_case d "asc" = true.
Proof.
  destruct d as [|x [|y [|z [|w d]]]]; cbn [lower equal_ignoring_case];
    try (split; [discriminate|]; rewrite ?andb_true_iff; intros H;
         decompose [and] H; discriminate).
  rewrite !andb_true_iff, <- lower_ascii_a, <- lower_ascii_s, <- lower_ascii_c.
  split.
  - intros H. injection H as -> -> ->. auto.
  - intros [-> [-> [-> _]]]. reflexivity.
Qed.

Lemma fold_eq_calls (fs : dict value) (q : query) :
  fold_left (fun query '(column, value) => Builder.eq query column value) fs q
  = {| q_table := q_table q; q_calls := q_calls q ++ map eq_call fs |}.
Proof.
  revert q. induction fs as [|[c v] fs IH]; intros q; simpl.
  - rewrite app_nil_r. destruct q; reflexivity.
  - rewrite IH. simpl. rewrite <- app_assoc. reflexivity.
Qed.

Lemma fold_order_calls (ob : dict string) (q : query) :
  fold_left (fun query '(column, direction) =>
               if decide (lower direction = "asc")
               then Builder.order query column false
               else Builder.order query column true) ob q
  = {| q_table := q_table q; q_calls := q_calls q ++ map order_call ob |}.
Proof.
  revert q. induction ob as [|[c d] ob IH]; intros q; simpl.
  - rewrite app_nil_r. destruct q; reflexivity.
  - rewrite IH. unfold order_call at 2. simpl.
    destruct (decide (lower d = "asc")) as [H|H]; simpl.
    + apply lower_asc in H. rewrite H. simpl. rewrite <- app_assoc. reflexivity.
    + assert (equal_ignoring_case d "asc" = false) as ->.
      { destruct (equal_ignoring_case d "asc") eqn:E; [|reflexivity].
        apply lower_asc in E. contradiction. }
      simpl. rewrite <- app_assoc. reflexivity.
Qed.

Lemma truthy_items {V} (d : option (dict V)) : truthy_dict d = false -> items d = [].
Proof. destruct d as [[|]|]; simpl; congruence. Qed.

(** The calls [read_records] makes on the builder, in order. *)
Lemma read_query_calls table columns filters limit offset order_by :
  SupabaseClient.read_query table columns filters limit offset order_by
  = {| q_table := table;
       q_calls := Select columns :: map eq_call (items filters)
                  ++ map order_call (items order_by)
                  ++ limit_part limit ++ offset_part offset |}.
Proof.
  unfold SupabaseClient.read_query.
  set (q0 := Builder.select (Builder.table table) columns).
  assert (E1 : (if truthy_dict filters
                then fold_left (fun query '(column, value) =>
                                  Builder.eq query column value) (items filters) q0
                else q0)
               = {| q_table := table;
                    q_calls := Select columns :: map eq_call (items filters) |}).
  { destruct (truthy_dict filters) eqn:E.
    - rewrite fold_eq_calls. reflexivity.
    - rewrite (truthy_items _ E). reflexivity. }
  rewrite E1. clear E1.
  set (q1 := {| q_table := table;
                q_calls := Select columns :: map eq_call (items filters) |}).
  assert (E2 : (if truthy_dict order_by
                then fold_left (fun query '(column, direction) =>
                       if decide (lower direction = "asc")
                       then Builder.order query column false
                       else Builder.order query column true) (items order_by) q1
                else q1)
               = {| q_table := table;
                    q_calls := q_calls q1 ++ map order_call (items order_by) |}).
  { destruct (truthy_dict order_by) eqn:E.
    - rewrite fold_order_calls. reflexivity.
    - rewrite (truthy_items _ E). simpl. rewrite app_nil_r. reflexivity. }
  rewrite E2. clear E2. subst q1. simpl.
  destruct limit as [n|], offset as [m|]; simpl;
    repeat match goal with
           | |- context [(?k =? 0)%Z] => destruct (k =? 0)%Z
           end; simpl;
    unfold Builder.limit, Builder.offset, Builder.call_on; simpl;
    rewrite <- ?app_assoc, ?app_nil_r; reflexivity.
Qed.

(** After an operation the builder has [eq]: the loop over the filters
    then is the plain fold, as [read_records] has it after [select]. *)
Lemma eq_each_after_operation (fs : dict value) (q : query) :
  Builder.has_operation q = true ->
  SupabaseClient.eq_each fs q
  = Return (fold_left (fun query '(column, value) =>
                         Builder.eq query column value) fs q).
Proof.
  revert q. induction fs as [|[c v] fs IH]; intros q Hq; simpl;
    [reflexivity|].
  unfold Builder.getattr_eq. rewrite Hq. simpl. apply IH.
  unfold Builder.has_operation, Builder.eq, Builder.call_on in *. simpl.
  rewrite existsb_app, Hq. reflexivity.
Qed.

Lemma update_query_unfiltered table updates :
  SupabaseClient.update_query table updates []
  = Return {| q_table := table; q_calls := [Update updates] |}.
Proof. reflexivity. Qed.

Lemma delete_query_unfiltered table :
  SupabaseClient.delete_query table []
  = Return {| q_table := table; q_calls := [Delete] |}.
Proof. reflexivity. Qed.

Lemma update_query_filtered table updates f (fs : dict value) :
  SupabaseClient.update_query table updates (f :: fs) = Raise no_eq_on_table.
Proof. destruct f. reflexivity. Qed.

Lemma delete_query_filtered table f (fs : dict value) :
  SupabaseClient.delete_query table (f :: fs) = Raise no_eq_on_table.
Proof. destruct f. reflexivity. Qed.

Lemma eq_calls_eq (fs : dict value) : eq_calls (map eq_call fs) = fs.
Proof. induction fs as [|[c v] fs IH]; simpl; [|unfold eq_calls in *; simpl; rewrite IH]; reflexivity. Qed.

Lemma eq_calls_order (ob : dict string) : eq_calls (map order_call ob) = [].
Proof. induction ob as [|[c d] ob IH]; simpl; auto. Qed.

Lemma order_calls_eq (fs : dict value) : order_calls (map eq_call fs) = [].
Proof. induction fs as [|[c v] fs IH]; simpl; auto. Qed.

Lemma order_calls_order (ob : dict string) :
  order_calls (map order_call ob)
  = map (fun o => (o.1, negb (equal_ignoring_case o.2 "asc"))) ob.
Proof.
  induction ob as [|[c d] ob IH]; simpl; [reflexivity|].
  unfold order_calls in *. simpl. rewrite IH. reflexivity.
Qed.

(** ** Sorting *)

Section Sorting.
Context {A : Type}.

Lemma StronglySorted_take (R : A -> A -> Prop) n (l : list A) :
  StronglySorted R l -> StronglySorted R (take n l).
Proof.
  intros H. revert n. induction H as [|a l Hl IH Ha]; intros [|n]; simpl;
    constructor; auto using Forall_take.
Qed.

Lemma StronglySorted_drop (R : A -> A -> Prop) n (l : list A) :
  StronglySorted R l -> StronglySorted R (drop n l).
Proof.
  intros H. revert n. induction H as [|a l Hl IH Ha]; intros [|n]; simpl;
    try constructor; auto.
Qed.

Lemma StronglySorted_map {C} (f : A -> C) (R : A -> A -> Prop)
    (R' : C -> C -> Prop) (l : list A) :
  (forall x y, R x y -> R' (f x) (f y)) ->
  StronglySorted R l -> StronglySorted R' (map f l).
Proof.
  intros Hf H. induction H as [|a l Hl IH Ha]; simpl; constructor; auto.
  apply List.Forall_map. eapply Forall_impl; [exact Ha|]. intros y. apply Hf.
Qed.
End Sorting.

Section InsertionSort.
Variable leb : record -> record -> bool.

Lemma insert_row_perm r l : Permutation (insert_row leb r l) (r :: l).
Proof.
  induction l as [|x l IH]; simpl; [reflexivity|].
  destruct (leb r x); [reflexivity|].
  rewrite IH. apply perm_swap.
Qed.

Lemma sort_rows_perm l : Permutation (sort_rows leb l) l.
Proof.
  induction l as [|x l IH]; simpl; [reflexivity|].
  rewrite insert_row_perm. apply perm_skip, IH.
Qed.

Lemma sort_rows_In r l : In r (sort_rows leb l) <-> In r l.
Proof.
  split; apply Permutation_in; [|symmetry]; apply sort_rows_perm.
Qed.

Hypothesis total : leb_total leb.

Lemma insert_row_sorted r l :
  Sorted (ordered leb) l -> Sorted (ordered leb) (insert_row leb r l).
Proof.
  induction 1 as [|x l Hl IH Hx]; simpl.
  - repeat constructor.
  - destruct (leb r x) eqn:E.
    + repeat constructor; assumption.
    + constructor; [exact IH|].
      assert (Hxr : ordered leb x r).
      { destruct (total r x) as [H|H]; [congruence|exact H]. }
      destruct Hx as [|y l' Hy]; simpl.
      * repeat constructor. exact Hxr.
      * destruct (leb r y); constructor; assumption.
Qed.

Lemma sort_rows_sorted l : Sorted (ordered leb) (sort_rows leb l).
Proof.
  induction l as [|x l IH]; simpl; [constructor|].
  apply insert_row_sorted, IH.
Qed.

Hypothesis trans : leb_trans leb.

Lemma sort_rows_strongly_sorted l :
  StronglySorted (ordered leb) (sort_rows leb l).
Proof.
  apply Sorted_StronglySorted; [|apply sort_rows_sorted].
  intros a b c. apply trans.
Qed.
End InsertionSort.

(** ** Reading the calls of the composed queries *)

Lemma eq_calls_app cs1 cs2 : eq_calls (cs1 ++ cs2) = eq_calls cs1 ++ eq_calls cs2.
Proof. apply omap_app. Qed.

Lemma order_calls_app cs1 cs2 :
  order_calls (cs1 ++ cs2) = order_calls cs1 ++ order_calls cs2.
Proof. apply omap_app. Qed.

Lemma limit_calls_app cs1 cs2 :
  limit_calls (cs1 ++ cs2) = limit_calls cs1 ++ limit_calls cs2.
Proof. apply omap_app. Qed.

Lemma offset_calls_app cs1 cs2 :
  offset_calls (cs1 ++ cs2) = offset_calls cs1 ++ offset_calls cs2.
Proof. apply omap_app. Qed.

Lemma limit_calls_eq (fs : dict value) : limit_calls (map eq_call fs) = [].
Proof. induction fs as [|[c v] fs IH]; simpl; auto. Qed.

Lemma limit_calls_order (ob : dict string) : limit_calls (map order_call ob) = [].
Proof. induction ob as [|[c d] ob IH]; simpl; auto. Qed.

Lemma offset_calls_eq (fs : dict value) : offset_calls (map eq_call fs) = [].
Proof. induction fs as [|[c v] fs IH]; simpl; auto. Qed.

Lemma offset_calls_order (ob : dict string) : offset_calls (map order_call ob) = [].
Proof. induction ob as [|[c d] ob IH]; simpl; auto. Qed.

Lemma calls_of_limit_part limit :
  eq_calls (limit_part limit) = [] /\ order_calls (limit_part limit) = []
  /\ offset_calls (limit_part limit) = []
  /\ last (limit_calls (limit_part limit)) = effective limit.
Proof.
  destruct limit as [n|]; unfold effective; simpl; auto.
  destruct (n =? 0)%Z; simpl; auto.
Qed.

Lemma calls_of_offset_part offset :
  eq_calls (offset_part offset) = [] /\ order_calls (offset_part offset) = []
  /\ limit_calls (offset_part offset) = []
  /\ last (offset_calls (offset_part offset)) = effective offset.
Proof.
  destruct offset as [n|]; unfold effective; simpl; auto.
  destruct (n =? 0)%Z; simpl; auto.
Qed.

Section ReadQuery.
Variables (table columns : string) (filters : option (dict value)).
Variables (limit offset : option Z) (order_by : option (dict string)).

Local Abbreviation q :=
  (SupabaseClient.read_query table columns filters limit offset order_by).

Lemma read_query_table : q_table q = table.
Proof. rewrite read_query_calls. reflexivity. Qed.

Lemma read_query_verb : verb_of (q_calls q) = Some (Select columns).
Proof. rewrite read_query_calls. reflexivity. Qed.

Lemma read_query_eq_calls : eq_calls (q_calls q) = items filters.
Proof.
  rewrite read_query_calls. cbn [q_calls].
  change (Select columns :: ?l) with ([Select columns] ++ l).
  rewrite !eq_calls_app, eq_calls_eq, eq_calls_order.
  destruct (calls_of_limit_part limit) as [-> _].
  destruct (calls_of_offset_part offset) as [-> _].
  simpl. apply app_nil_r.
Qed.

Lemma read_query_order_calls : order_calls (q_calls q) = read_orders order_by.
Proof.
  rewrite read_query_calls. cbn [q_calls].
  change (Select columns :: ?l) with ([Select columns] ++ l).
  rewrite !order_calls_app, order_calls_eq, order_calls_order.
  destruct (calls_of_limit_part limit) as [_ [-> _]].
  destruct (calls_of_offset_part offset) as [_ [-> _]].
  simpl. apply app_nil_r.
Qed.

Lemma read_query_limit : last (limit_calls (q_calls q)) = effective limit.
Proof.
  rewrite read_query_calls. cbn [q_calls].
  change (Select columns :: ?l) with ([Select columns] ++ l).
  rewrite !limit_calls_app, limit_calls_eq, limit_calls_order.
  destruct (calls_of_offset_part offset) as [_ [_ [-> _]]].
  simpl. rewrite app_nil_r. apply calls_of_limit_part.
Qed.

Lemma read_query_offset : last (offset_calls (q_calls q)) = effective offset.
Proof.
  rewrite read_query_calls. cbn [q_calls].
  change (Select columns :: ?l) with ([Select columns] ++ l).
  rewrite !offset_calls_app, offset_calls_eq, offset_calls_order.
  destruct (calls_of_limit_part limit) as [_ [_ [-> _]]].
  simpl. apply calls_of_offset_part.
Qed.
End ReadQuery.

(** ** Evaluation on the reference backend *)

Section OnReferenceBackend.
Variable le : value -> value -> bool.
Variable assign : string -> list record -> record -> record.
Variable violation : string -> list record -> record -> option string.

Local Abbreviation R := (ref_supabase le assign violation).

Lemma ref_read_records table columns filters limit offset order_by s :
  SupabaseClient.read_records R table columns filters limit offset order_by s
  = let q := SupabaseClient.read_query table columns filters limit offset
               order_by in
    match tables s !! table with
    | None =>
        (Raise (Exception "APIError" ("relation does not exist: " +:+ table)),
         logged q s)
    | Some rows =>
        if negative (effective limit) || negative (effective offset) then
          (Raise (Exception "APIError" "range not satisfiable"), logged q s)
        else
          (Return (map (project columns)
                     (window (effective limit) (effective offset)
                        (sort_rows (row_leb le (read_orders order_by))
                           (List.filter (matches (items filters)) rows)))),
           logged q s)
    end.
Proof.
  unfold SupabaseClient.read_records, SupabaseClient.run. cbn [ref_supabase
    SupabaseClient.client ref_client execute]. unfold ref_execute.
  rewrite read_query_table, read_query_verb, read_query_eq_calls,
    read_query_order_calls, read_query_limit, read_query_offset.
  cbv zeta. destruct (tables s !! table) as [rows|]; [|reflexivity].
  destruct (negative (effective limit) || negative (effective offset));
    reflexivity.
Qed.
End OnReferenceBackend.

Section OnReferenceBackendWrites.
Variable le : value -> value -> bool.
Variable assign : string -> list record -> record -> record.
Variable violation : string -> list record -> record -> option string.

Local Abbreviation R := (ref_supabase le assign violation).

Lemma ref_update_unfiltered table updates s :
  SupabaseClient.update_records R table updates [] s
  = let q := {| q_table := table; q_calls := [Update updates] |} in
    match tables s !! table with
    | None =>
        (Raise (Exception "APIError" ("relation does not exist: " +:+ table)),
         logged q s)
    | Some rows =>
        (Return (map (apply_updates updates) rows),
         {| tables := <[table := map (apply_updates updates) rows]> (tables s);
            requests := requests s ++ [q] |})
    end.
Proof.
  unfold SupabaseClient.update_records, SupabaseClient.run.
  rewrite update_query_unfiltered.
  cbn [ref_supabase SupabaseClient.client ref_client execute].
  unfold ref_execute. cbn [q_table q_calls verb_of List.find is_verb eq_calls].
  cbv zeta. destruct (tables s !! table) as [rows|]; [|reflexivity].
  assert (Hall : forall f : record -> bool,
             (forall r, f r = true) -> List.filter f rows = rows).
  { intros f Hf. induction rows as [|r rows IH]; simpl; [reflexivity|].
    rewrite Hf, IH. reflexivity. }
  rewrite Hall by reflexivity. reflexivity.
Qed.

Lemma ref_delete_unfiltered table s :
  SupabaseClient.delete_records R table [] s
  = let q := {| q_table := table; q_calls := [Delete] |} in
    match tables s !! table with
    | None =>
        (Raise (Exception "APIError" ("relation does not exist: " +:+ table)),
         logged q s)
    | Some rows =>
        (Return rows,
         {| tables := <[table := []]> (tables s);
            requests := requests s ++ [q] |})
    end.
Proof.
  unfold SupabaseClient.delete_records, SupabaseClient.run.
  rewrite delete_query_unfiltered.
  cbn [ref_supabase SupabaseClient.client ref_client execute].
  unfold ref_execute. cbn [q_table q_calls verb_of List.find is_verb eq_calls].
  cbv zeta. destruct (tables s !! table) as [rows|]; [|reflexivity].
  assert (Hall : forall f : record -> bool,
             (forall r, f r = true) -> List.filter f rows = rows).
  { intros f Hf. induction rows as [|r rows IH]; simpl; [reflexivity|].
    rewrite Hf, IH. reflexivity. }
  assert (Hnone : forall f : record -> bool,
             (forall r, f r = false) -> List.filter f rows = []).
  { clear Hall. intros f Hf.
    induction rows as [|r rows IH]; simpl; [reflexivity|].
    rewrite Hf. exact IH. }
  rewrite Hall by reflexivity. rewrite Hnone by reflexivity. reflexivity.
Qed.

(** A write with at least one filter raises before any request. *)
Lemma update_filtered_raises {B} (self : SupabaseClient.t B) table updates f
    (fs : dict value) (s : B) :
  SupabaseClient.update_records self table updates (f :: fs) s
  = (Raise no_eq_on_table, s).
Proof.
  unfold SupabaseClient.update_records. rewrite update_query_filtered.
  reflexivity.
Qed.

Lemma delete_filtered_raises {B} (self : SupabaseClient.t B) table f
    (fs : dict value) (s : B) :
  SupabaseClient.delete_records self table (f :: fs) s
  = (Raise no_eq_on_table, s).
Proof.
  unfold SupabaseClient.delete_records. rewrite delete_query_filtered.
  reflexivity.
Qed.

Lemma ref_create_records table records s :
  SupabaseClient.create_records R table records s
  = let q := SupabaseClient.create_query table records in
    match tables s !! table with
    | None =>
        (Raise (Exception "APIError" ("relation does not exist: " +:+ table)),
         logged q s)
    | Some rows =>
        match store assign violation table rows (rows_of records) with
        | Return stored =>
            (Return stored,
             {| tables := <[table := rows ++ stored]> (tables s);
                requests := requests s ++ [q] |})
        | Raise e => (Raise e, logged q s)
        end
    end.
Proof.
  unfold SupabaseClient.create_records, SupabaseClient.run. cbn [ref_supabase
    SupabaseClient.client ref_client execute]. unfold ref_execute.
  cbn [SupabaseClient.create_query Builder.insert Builder.call_on Builder.table
       q_table q_calls app verb_of List.find is_verb].
  destruct (tables s !! table) as [rows|]; [|reflexivity].
  destruct (store assign violation table rows (rows_of records)); reflexivity.
Qed.

Lemma store_length table existing new stored :
  store assign violation table existing new = Return stored ->
  length stored = length new.
Proof.
  revert existing stored.
  induction new as [|r new IH]; intros existing stored; simpl.
  - intros [= <-]. reflexivity.
  - destruct (violation table existing r); [discriminate|].
    destruct (store assign violation table
                (existing ++ [assign table existing r]) new) as [st|e] eqn:E;
      simpl; [|discriminate].
    intros [= <-]. simpl. f_equal. eapply IH, E.
Qed.
End OnReferenceBackendWrites.

(** ** Rows and filters *)

Lemma matches_spec (filters : dict value) (r : record) :
  matches filters r = true
  <-> forall column v, In (column, v) filters -> dict_get column r = Some v.
Proof.
  unfold matches. rewrite forallb_forall. split.
  - intros H column v Hin. specialize (H _ Hin). simpl in H.
    unfold row_has in H. apply bool_decide_eq_true in H. exact H.
  - intros H [column v] Hin. unfold row_has. apply bool_decide_eq_true.
    apply H, Hin.
Qed.

Lemma matches_nil (r : record) : matches [] r = true.
Proof. reflexivity. Qed.

Lemma filter_all {A} (f : A -> bool) (l : list A) :
  (forall x, f x = true) -> List.filter f l = l.
Proof.
  intros H. induction l as [|x l IH]; simpl; [reflexivity|].
  rewrite H, IH. reflexivity.
Qed.

Lemma filter_none {A} (f : A -> bool) (l : list A) :
  (forall x, f x = false) -> List.filter f l = [].
Proof.
  intros H. induction l as [|x l IH]; simpl; [reflexivity|].
  rewrite H, IH. reflexivity.
Qed.

Lemma dict_get_filter_keys {V} (keep : string -> bool) (k : string) (d : dict V) :
  dict_get k (List.filter (fun '(k', _) => keep k') d)
  = if keep k then dict_get k d else None.
Proof.
  induction d as [|[k' v] d IH]; simpl.
  - destruct (keep k); reflexivity.
  - destruct (keep k') eqn:E; simpl.
    + destruct (decide (k = k')) as [->|Hne].
      * rewrite E. reflexivity.
      * exact IH.
    + rewrite IH. destruct (decide (k = k')) as [->|Hne]; [|reflexivity].
      rewrite E. reflexivity.
Qed.

(** A projection keeps a column in every row or drops it in every row. *)
Lemma cell_project (columns column : string) :
  (forall r, cell (project columns r) column = cell r column)
  \/ (forall r, cell (project columns r) column = VNull).
Proof.
  unfold project, cell.
  destruct (bool_decide ("*" ∈ split_on "," columns)); [left; reflexivity|].
  destruct (bool_decide (column ∈ split_on "," columns)) eqn:E.
  - left. intros r.
    rewrite (dict_get_filter_keys
               (fun k => bool_decide (k ∈ split_on "," columns))), E.
    reflexivity.
  - right. intros r.
    rewrite (dict_get_filter_keys
               (fun k => bool_decide (k ∈ split_on "," columns))), E.
    reflexivity.
Qed.

(** * The claims of the specification *)

(** ** The result envelope *)

(** C1. For each of the four tools and every input: when the translator call
    returns rows, the tool returns the envelope [{records: rows}], which has
    no ["error"] key; when the translator call raises an exception (an
    instance of [Exception], which is what the tool's [except Exception]
    names), the tool does not raise but returns
    [{error: str(e), records: []}]. *)
Theorem tool_wraps_translator_outcome {B} (supabase : SupabaseClient.t B)
    (i : Server.invocation) (s : B) :
  (forall rows s',
      Server.translator_call supabase i s = (Return rows, s') ->
      Server.call_tool supabase i s = (Return {[ "records" := PList rows ]}, s')
      /\ ({[ "records" := PList rows ]} : gmap string pyval) !! "error" = None)
  /\ (forall e s',
        Server.translator_call supabase i s = (Raise e, s') ->
        isinstance_Exception e = true ->
        Server.call_tool supabase i s
        = (Return {[ "error" := PStr (str e); "records" := PList [] ]}, s')).
Proof.
  split.
  - intros rows s' H. split; [|reflexivity].
    destruct i; cbn [Server.call_tool Server.translator_call] in *;
      unfold Server.read_records, Server.create_records,
        Server.update_records, Server.delete_records;
      rewrite H; reflexivity.
  - intros e s' H He.
    destruct i; cbn [Server.call_tool Server.translator_call] in *;
      unfold Server.read_records, Server.create_records,
        Server.update_records, Server.delete_records;
      rewrite H, He; reflexivity.
Qed.

(** C10. For each of the four tools and every input, a value the tool returns
    is a dictionary with the key ["records"] bound to a list, and it has the
    key ["error"] exactly when the translator call raised.  The tool returns
    such a value unless the translator call raised outside [Exception]. *)
Theorem tool_envelope_shape {B} (supabase : SupabaseClient.t B)
    (i : Server.invocation) (s : B) :
  match Server.call_tool supabase i s with
  | (Return env, _) =>
      (exists rows, env !! "records" = Some (PList rows))
      /\ (is_Some (env !! "error")
          <-> exists e, (Server.translator_call supabase i s).1 = Raise e)
  | (Raise e, _) =>
      (Server.translator_call supabase i s).1 = Raise e
      /\ isinstance_Exception e = false
  end.
Proof.
  destruct i; cbn [Server.call_tool Server.translator_call];
    unfold Server.read_records, Server.create_records,
      Server.update_records, Server.delete_records;
    match goal with
    | |- context [match ?t with _ => _ end] =>
        match type of t with
        | (outcome (list record) * B)%type => destruct t as [[rows|e] s']
        end
    end; cbn [fst];
    try destruct (isinstance_Exception e) eqn:He; cbn [fst];
    repeat split; eauto;
    try (intros [? [=]]); try (intros [? ?]; discriminate).
Qed.

Lemma tool_wraps_translator_outcome_witness :
  (Server.call_tool Example.supabase
     (Server.ReadRecords "users" None None None None None) Example.db0).1
  = Return {[ "records" := PList Example.users ]}
  /\ (Server.call_tool Example.supabase
        (Server.ReadRecords "orders" None (Some [("id", VInt 1)]) None None
           None) Example.db0).1
     = Return {[ "error" := PStr "relation does not exist: orders";
                 "records" := PList [] ]}.
Proof.
  split.
  - pose proof (proj1 (tool_wraps_translator_outcome Example.supabase
        (Server.ReadRecords "users" None None None None None) Example.db0)
        Example.users
        (logged (SupabaseClient.read_query "users" "*" None None None None)
                Example.db0)) as H.
    destruct H as [H _]; [vm_compute; reflexivity|].
    rewrite H. reflexivity.
  - pose proof (proj2 (tool_wraps_translator_outcome Example.supabase
        (Server.ReadRecords "orders" None (Some [("id", VInt 1)]) None None
           None) Example.db0)
        (Exception "APIError" "relation does not exist: orders")
        (logged (SupabaseClient.read_query "orders" "*"
                   (Some [("id", VInt 1)]) None None None)
                Example.db0)) as H.
    rewrite H; [reflexivity|vm_compute; reflexivity|reflexivity].
Defined.

(** ** Sort clauses *)

(** C3. For every read invocation, the sort clauses of the composed query are
    those of the entries of [order_by], one clause per entry and in the
    iteration order of the mapping: ascending ([desc = false]) on the entry's
    column when its direction equals ["asc"] ignoring case, and descending
    ([desc = true]) for any other direction. *)
Theorem read_order_by_clauses table columns filters limit offset order_by :
  order_calls
    (q_calls (SupabaseClient.read_query table columns filters limit offset
                order_by))
  = map (fun '(column, direction) =>
           (column, if equal_ignoring_case direction "asc" then false else true))
        (items order_by).
Proof.
  rewrite read_query_order_calls. unfold read_orders.
  apply map_ext. intros [column direction]. simpl.
  destruct (equal_ignoring_case direction "asc"); reflexivity.
Qed.

Example read_order_by_mixed_case :
  q_calls (SupabaseClient.read_query "users" "*" None None None
             (Some [("name", "Asc"); ("created_at", "DESC"); ("id", "ascending")]))
  = [Select "*"; Order "name" false; Order "created_at" true; Order "id" true].
Proof. reflexivity. Qed.

(** ** Reads leave the backend alone *)

(** C9. For every read invocation, on any client: the translator runs
    [execute] once, on a query whose operation is the select and which holds
    no insert, update or delete call, and what it returns is the [data] of
    the response as it is (a raise of [execute] is passed on).  On the
    reference backend the tables after the call are the tables before it, and
    the request log has grown by that one query. *)
Theorem read_records_only_reads table columns filters limit offset order_by :
  let q := SupabaseClient.read_query table columns filters limit offset
             order_by in
  (forall B (self : SupabaseClient.t B) (s : B),
      match execute (SupabaseClient.client self) q s with
      | (Return response, s') =>
          SupabaseClient.read_records self table columns filters limit offset
            order_by s = (Return (data response), s')
      | (Raise e, s') =>
          SupabaseClient.read_records self table columns filters limit offset
            order_by s = (Raise e, s')
      end)
  /\ verb_of (q_calls q) = Some (Select columns)
  /\ Forall (fun c => is_mutation c = false) (q_calls q)
  /\ (forall le assign violation (s : db),
        let s' := (SupabaseClient.read_records
                     (ref_supabase le assign violation) table columns filters
                     limit offset order_by s).2 in
        tables s' = tables s /\ requests s' = requests s ++ [q]).
Proof.
  intros q. split; [|split; [|split]].
  - intros B self s. unfold SupabaseClient.read_records, SupabaseClient.run.
    fold q. destruct (execute (SupabaseClient.client self) q s) as [[r|e] s'];
      reflexivity.
  - apply read_query_verb.
  - subst q. rewrite read_query_calls. cbn [q_calls].
    constructor; [reflexivity|].
    rewrite !Forall_app. repeat split.
    + apply List.Forall_map, Forall_forall. reflexivity.
    + apply List.Forall_map, Forall_forall. reflexivity.
    + destruct limit as [n|]; simpl; [destruct (n =? 0)%Z|]; repeat constructor.
    + destruct offset as [n|]; simpl; [destruct (n =? 0)%Z|]; repeat constructor.
  - intros le assign violation s. rewrite ref_read_records. fold q. cbv zeta.
    destruct (tables s !! table); [|split; reflexivity].
    destruct (negative (effective limit) || negative (effective offset));
      split; reflexivity.
Qed.

(** ** Limit and offset of zero *)

(** C2, as the code has it: a [limit] of [0] fails the test [if limit:], so
    no limit call is made and the composed query is the one of an absent
    limit (likewise for [offset]).  On the example table, which has three
    rows, [limit=0] returns all three, where the same query with the call
    [limit(0)] made returns none. *)
Theorem read_limit_zero_is_dropped :
  (forall table columns filters offset order_by,
      SupabaseClient.read_query table columns filters (Some 0%Z) offset order_by
      = SupabaseClient.read_query table columns filters None offset order_by)
  /\ (forall table columns filters limit order_by,
        SupabaseClient.read_query table columns filters limit (Some 0%Z) order_by
        = SupabaseClient.read_query table columns filters limit None order_by)
  /\ (SupabaseClient.read_records Example.supabase "users" "*" None (Some 0%Z)
        None None Example.db0).1 = Return Example.users
  /\ (SupabaseClient.run Example.supabase
        (Builder.limit (Builder.select (Builder.table "users") "*") 0)
        Example.db0).1 = Return [].
Proof.
  split; [|split; [|split]].
  - intros. rewrite !read_query_calls. reflexivity.
  - intros. rewrite !read_query_calls. reflexivity.
  - vm_compute. reflexivity.
  - vm_compute. reflexivity.
Qed.

(** ** Filters *)

(** C5. For every update or delete invocation with an empty filter mapping:
    the composed query holds no equality constraint, only the operation; the
    translator hands it to [execute] as it is, with no guard in between; and
    on the reference backend the operation applies to every row of the table:
    the update changes and returns all rows, the delete removes and returns
    all rows. *)
Theorem empty_filters_reach_every_row le assign violation table updates
    (s : db) (rows : list record) :
  tables s !! table = Some rows ->
  let R := ref_supabase le assign violation in
  SupabaseClient.update_query table updates []
  = Return {| q_table := table; q_calls := [Update updates] |}
  /\ SupabaseClient.delete_query table []
     = Return {| q_table := table; q_calls := [Delete] |}
  /\ (forall B (self : SupabaseClient.t B) (b : B),
         SupabaseClient.update_records self table updates [] b
         = SupabaseClient.run self
             {| q_table := table; q_calls := [Update updates] |} b
         /\ SupabaseClient.delete_records self table [] b
            = SupabaseClient.run self
                {| q_table := table; q_calls := [Delete] |} b)
  /\ SupabaseClient.update_records R table updates [] s
     = (Return (map (apply_updates updates) rows),
        {| tables := <[table := map (apply_updates updates) rows]> (tables s);
           requests := requests s
                       ++ [{| q_table := table;
                              q_calls := [Update updates] |}] |})
  /\ SupabaseClient.delete_records R table [] s
     = (Return rows,
        {| tables := <[table := []]> (tables s);
           requests := requests s
                       ++ [{| q_table := table; q_calls := [Delete] |}] |}).
Proof.
  intros Hrows R. repeat split.
  - subst R. rewrite ref_update_unfiltered, Hrows. reflexivity.
  - subst R. rewrite ref_delete_unfiltered, Hrows. reflexivity.
Qed.

Lemma empty_filters_reach_every_row_witness :
  (SupabaseClient.update_records Example.supabase "users"
     [("name", VStr "x")] [] Example.db0).1
  = Return (map (apply_updates [("name", VStr "x")]) Example.users)
  /\ (SupabaseClient.delete_records Example.supabase "users" [] Example.db0).1
     = Return Example.users
  /\ tables (SupabaseClient.delete_records Example.supabase "users" []
               Example.db0).2 !! "users" = Some [].
Proof.
  pose proof (empty_filters_reach_every_row Example.le_int Example.assign_id
                Example.name_required "users" [("name", VStr "x")] Example.db0
                Example.users eq_refl) as H.
  cbv zeta in H. destruct H as (_ & _ & _ & Hu & Hd).
  unfold Example.supabase. rewrite Hu, Hd. repeat split.
Defined.

(** C6. For every read invocation, the equality constraints of the composed
    query are the entries of [filters], one constraint [column = value] per
    entry and in the iteration order of the mapping; apart from them the
    query holds only the select, the sort clauses, the limit and the offset,
    so that nothing but equalities constrains the rows.  On the reference
    backend the selection is their conjunction: every returned row is the
    projection of a row of the table that satisfies all the constraints, and
    without a limit or an offset every such row is returned. *)
Theorem read_filters_are_conjunctive le assign violation table columns
    (fs : dict value) limit offset order_by (s s' : db) (out : list record) :
  fs <> [] ->
  SupabaseClient.read_records (ref_supabase le assign violation) table columns
    (Some fs) limit offset order_by s = (Return out, s') ->
  let q := SupabaseClient.read_query table columns (Some fs) limit offset
             order_by in
  eq_calls (q_calls q) = fs
  /\ Forall (fun c => match c with
                      | Eq column v => In (column, v) fs
                      | Select _ | Order _ _ | Limit _ | Offset _ => True
                      | _ => False
                      end) (q_calls q)
  /\ exists rows,
      tables s !! table = Some rows
      /\ (forall r', In r' out ->
            exists r, In r rows /\ r' = project columns r
                      /\ forall column v, In (column, v) fs ->
                                          dict_get column r = Some v)
      /\ (effective limit = None -> effective offset = None ->
          forall r, In r rows ->
            (forall column v, In (column, v) fs -> dict_get column r = Some v) ->
            In (project columns r) out).
Proof.
  intros _ Hrun q. split; [|split].
  - apply (read_query_eq_calls table columns (Some fs)).
  - subst q. rewrite read_query_calls. cbn [q_calls items default].
    constructor; [exact I|]. rewrite !Forall_app. repeat split.
    + apply List.Forall_map, Forall_forall. intros [c v] Hin.
      apply list_elem_of_In in Hin. exact Hin.
    + apply List.Forall_map, Forall_forall. intros [c d] _. exact I.
    + destruct limit as [n|]; simpl; [destruct (n =? 0)%Z|]; repeat constructor.
    + destruct offset as [n|]; simpl; [destruct (n =? 0)%Z|]; repeat constructor.
  - rewrite ref_read_records in Hrun. cbv zeta in Hrun.
    destruct (tables s !! table) as [rows|]; [|discriminate].
    destruct (negative (effective limit) || negative (effective offset));
      [discriminate|].
    injection Hrun as <- _. exists rows. cbn [items default].
    split; [reflexivity|]. split.
    + intros r' Hr'. apply in_map_iff in Hr' as [r [<- Hr]].
      assert (Hs : In r (sort_rows (row_leb le (read_orders order_by))
                           (List.filter (matches fs) rows))).
      { unfold window in Hr.
        destruct (effective limit), (effective offset);
          repeat match type of Hr with
                 | In _ (take _ _) => apply list_elem_of_In in Hr;
                     apply (subseteq_take _ _ _) in Hr; apply list_elem_of_In in Hr
                 | In _ (drop _ _) => apply list_elem_of_In in Hr;
                     apply (subseteq_drop _ _ _) in Hr; apply list_elem_of_In in Hr
                 end; exact Hr. }
      apply sort_rows_In, filter_In in Hs as [Hin Hm].
      exists r. repeat split; [exact Hin|]. apply matches_spec, Hm.
    + intros -> -> r Hin Hall. apply in_map. unfold window.
      apply sort_rows_In, filter_In. split; [exact Hin|].
      apply matches_spec, Hall.
Qed.

Lemma read_filters_are_conjunctive_witness :
  eq_calls
    (q_calls (SupabaseClient.read_query "users" "*"
                (Some [("name", VStr "Bob"); ("id", VInt 2)]) None None None))
  = [("name", VStr "Bob"); ("id", VInt 2)].
Proof.
  refine (proj1 (read_filters_are_conjunctive Example.le_int Example.assign_id
                   Example.name_required "users" "*"
                   [("name", VStr "Bob"); ("id", VInt 2)] None None None
                   Example.db0
                   (logged (SupabaseClient.read_query "users" "*"
                              (Some [("name", VStr "Bob"); ("id", VInt 2)])
                              None None None) Example.db0)
                   [Example.user 2 "Bob" 30] _ _)).
  - discriminate.
  - vm_compute. reflexivity.
Defined.

(** ** Sorted reads *)

Section SortedReads.
Variable le : value -> value -> bool.
Hypothesis le_total : leb_total le.
Hypothesis le_trans : leb_trans le.

Lemma row_leb_single column (desc : bool) r1 r2 :
  row_leb le [(column, desc)] r1 r2
  = if desc then le (cell r2 column) (cell r1 column)
    else le (cell r1 column) (cell r2 column).
Proof.
  simpl. destruct desc;
    match goal with
    | |- context [if le ?a ?b then _ else false] =>
        destruct (le a b), (le b a); reflexivity
    end.
Qed.

Lemma row_leb_single_total column desc : leb_total (row_leb le [(column, desc)]).
Proof.
  intros a b. rewrite !row_leb_single. destruct desc; apply le_total.
Qed.

Lemma row_leb_single_trans column desc : leb_trans (row_leb le [(column, desc)]).
Proof.
  intros a b c. rewrite !row_leb_single. destruct desc; intros H1 H2.
  - eapply le_trans; eassumption.
  - eapply le_trans; eassumption.
Qed.

Lemma le_refl v : le v v = true.
Proof. destruct (le_total v v); assumption. Qed.

(** The rows a select answers with are sorted by its one sort clause,
    whatever the filters, the window and the projection. *)
Lemma sorted_window_project column (desc : bool) columns limit offset rows :
  StronglySorted
    (fun r1 r2 => (if desc then le (cell r2 column) (cell r1 column)
                   else le (cell r1 column) (cell r2 column)) = true)
    (map (project columns)
       (window limit offset (sort_rows (row_leb le [(column, desc)]) rows))).
Proof.
  apply (StronglySorted_map (project columns)
           (ordered (row_leb le [(column, desc)]))).
  - intros x y. unfold ordered. rewrite row_leb_single.
    destruct (cell_project columns column) as [H|H]; rewrite !H.
    + auto.
    + intros _. destruct desc; apply le_refl.
  - unfold window.
    assert (Hs : StronglySorted (ordered (row_leb le [(column, desc)]))
                   (sort_rows (row_leb le [(column, desc)]) rows)).
    { apply sort_rows_strongly_sorted;
        [apply row_leb_single_total | apply row_leb_single_trans]. }
    destruct limit, offset;
      repeat first [apply StronglySorted_take | apply StronglySorted_drop];
      exact Hs.
Qed.
End SortedReads.

(** C4, amended.  On a backend whose order of column values is total and
    transitive, a read with [order_by = {"created_at": d}] returns its rows in
    non-decreasing [created_at] order when [d] equals ["asc"] ignoring case,
    and in non-increasing [created_at] order for every other [d], ["desc"]
    among them. *)
Theorem read_order_by_created_at le assign violation table columns filters
    limit offset (direction : string) (s s' : db) (out : list record) :
  leb_total le -> leb_trans le ->
  SupabaseClient.read_records (ref_supabase le assign violation) table columns
    filters limit offset (Some [("created_at", direction)]) s
  = (Return out, s') ->
  if equal_ignoring_case direction "asc"
  then non_decreasing le "created_at" out
  else non_increasing le "created_at" out.
Proof.
  intros Htotal Htrans Hrun.
  rewrite ref_read_records in Hrun. cbv zeta in Hrun.
  destruct (tables s !! table) as [rows|]; [|discriminate].
  destruct (negative (effective limit) || negative (effective offset));
    [discriminate|].
  injection Hrun as <- _.
  unfold read_orders. cbn [items default map fst snd].
  pose proof (fun desc => sorted_window_project le Htotal Htrans "created_at"
                desc columns (effective limit) (effective offset)
                (List.filter (matches (items filters)) rows)) as H.
  destruct (equal_ignoring_case direction "asc"); cbn [negb].
  - apply (H false).
  - apply (H true).
Qed.

Lemma le_int_total : leb_total Example.le_int.
Proof.
  intros a b. unfold Example.le_int. rewrite !Z.leb_le. lia.
Qed.

Lemma le_int_trans : leb_trans Example.le_int.
Proof.
  intros a b c. unfold Example.le_int. rewrite !Z.leb_le. lia.
Qed.

Lemma read_order_by_created_at_witness :
  non_increasing Example.le_int "created_at"
    [Example.user 2 "Bob" 30; Example.user 3 "Carol" 20;
     Example.user 1 "Alice" 10]
  /\ non_decreasing Example.le_int "created_at"
       [Example.user 1 "Alice" 10; Example.user 3 "Carol" 20;
        Example.user 2 "Bob" 30].
Proof.
  split.
  - refine (read_order_by_created_at Example.le_int Example.assign_id
              Example.name_required "users" "*" None None None "desc"
              Example.db0
              (logged (SupabaseClient.read_query "users" "*" None None None
                         (Some [("created_at", "desc")])) Example.db0)
              _ le_int_total le_int_trans _).
    vm_compute. reflexivity.
  - refine (read_order_by_created_at Example.le_int Example.assign_id
              Example.name_required "users" "*" None None None "ASC"
              Example.db0
              (logged (SupabaseClient.read_query "users" "*" None None None
                         (Some [("created_at", "ASC")])) Example.db0)
              _ le_int_total le_int_trans _).
    vm_compute. reflexivity.
Defined.

(** C4, as stated, fails: with [order_by = {"created_at": "up"}], a literal
    other than ["desc"], the rows of the example table come back with
    [created_at] 30, 20, 10, which is not a non-decreasing order. *)
Lemma order_by_other_literal_descends :
  exists out,
    (SupabaseClient.read_records Example.supabase "users" "*" None None None
       (Some [("created_at", "up")]) Example.db0).1 = Return out
    /\ map (fun r => cell r "created_at") out = [VInt 30; VInt 20; VInt 10]
    /\ ~ non_decreasing Example.le_int "created_at" out.
Proof.
  eexists. split; [vm_compute; reflexivity|]. split; [reflexivity|].
  intros H. apply StronglySorted_inv in H as [_ H].
  apply Forall_inv in H. vm_compute in H. discriminate.
Qed.

(** ** Creates *)

(** C7. On the reference backend, for every create invocation: when it
    succeeds, the result holds as many records as the payload — one for a
    single record, [N] for a sequence of [N] — and the tool returns them in
    the envelope [{records: ...}]; when it fails, no table has changed, so no
    part of the batch was stored. *)
Theorem create_preserves_batch_size le assign violation table
    (records : payload) (s : db) :
  let R := ref_supabase le assign violation in
  match SupabaseClient.create_records R table records s with
  | (Return created, s') =>
      length created = batch_size records
      /\ Server.create_records R table records s
         = (Return {[ "records" := PList created ]}, s')
  | (Raise e, s') => tables s' = tables s
  end.
Proof.
  intros R. unfold Server.create_records.
  subst R. rewrite ref_create_records. cbv zeta.
  destruct (tables s !! table) as [rows|]; [|reflexivity].
  destruct (store assign violation table rows (rows_of records))
    as [stored|e] eqn:E; [|reflexivity].
  split; [|reflexivity].
  apply store_length in E. rewrite E. destruct records; reflexivity.
Qed.

Example create_alice :
  (Server.create_records Example.supabase "users"
     (One [("name", VStr "Alice")])
     {| tables := {[ "users" := [] ]}; requests := [] |}).1
  = Return {[ "records" := PList [[("id", VInt 1); ("name", VStr "Alice")]] ]}.
Proof. vm_compute. reflexivity. Qed.

Example create_batch_of_two :
  (SupabaseClient.create_records Example.supabase "users"
     (Many [[("name", VStr "Dan")]; [("name", VStr "Eve")]]) Example.db0).1
  = Return [[("id", VInt 4); ("name", VStr "Dan")];
            [("id", VInt 5); ("name", VStr "Eve")]].
Proof. vm_compute. reflexivity. Qed.

Example create_batch_rejected_whole :
  let r := SupabaseClient.create_records Example.supabase "users"
             (Many [[("name", VStr "Dan")]; [("nickname", VStr "Eve")]])
             Example.db0 in
  r.1 = Raise (Exception "APIError"
                 "null value in column name violates not-null constraint")
  /\ tables r.2 !! "users" = Some Example.users.
Proof. vm_compute. split; reflexivity. Qed.

(** ** Startup *)

(** C8, amended.  When the backend URL or the service-role key is absent
    from the environment or empty, constructing the client raises
    [ValueError], and so does the body of the server module, which runs the
    constructor outside any [try]: no module state results and no tool has
    been registered.  When both are present and not empty, the constructor
    raises nothing of its own and passes them to [create_client]: with the
    client that [create_client] returns, construction returns and the module
    body finishes with the four tools registered; an exception that
    [create_client] raises is raised by the constructor and by the module
    body alike. *)
Theorem startup_requires_credentials {B}
    (create_client : string -> string -> outcome (Client B))
    (environ : gmap string string) :
  let url := environ !! "SUPABASE_URL" in
  let key := environ !! "SUPABASE_SERVICE_ROLE_KEY" in
  let missing := Exception "ValueError" SupabaseClient.missing_credentials in
  (url = None \/ url = Some "" \/ key = None \/ key = Some "" ->
   SupabaseClient.__init__ create_client environ = Raise missing
   /\ Server.module_body create_client environ = Raise missing)
  /\ (forall u k,
        url = Some u -> u <> "" -> key = Some k -> k <> "" ->
        SupabaseClient.__init__ create_client environ
        = (c ← create_client u k;
           Return {| SupabaseClient.url := u; SupabaseClient.key := k;
                     SupabaseClient.client := c |})
        /\ (forall c,
              create_client u k = Return c ->
              let self := {| SupabaseClient.url := u; SupabaseClient.key := k;
                             SupabaseClient.client := c |} in
              SupabaseClient.__init__ create_client environ = Return self
              /\ Server.module_body create_client environ
                 = Return {| Server.mcp :=
                               {| Server.name := "supabase-mcp";
                                  Server.tools :=
                                    ["read_records"; "create_records";
                                     "update_records"; "delete_records"] |};
                             Server.supabase := self |})
        /\ (forall e,
              create_client u k = Raise e ->
              SupabaseClient.__init__ create_client environ = Raise e
              /\ Server.module_body create_client environ = Raise e)).
Proof.
  intros url key missing. split.
  - intros H.
    assert (E : SupabaseClient.__init__ create_client environ = Raise missing).
    { unfold SupabaseClient.__init__, SupabaseClient.os_getenv.
      fold url key.
      destruct H as [-> | [-> | [-> | ->]]]; simpl;
        rewrite ?orb_true_r; reflexivity. }
    split; [exact E|]. unfold Server.module_body. rewrite E. reflexivity.
  - intros u k Hu Hu' Hk Hk'.
    assert (E : SupabaseClient.__init__ create_client environ
                = (c ← create_client u k;
                   Return {| SupabaseClient.url := u; SupabaseClient.key := k;
                             SupabaseClient.client := c |})).
    { unfold SupabaseClient.__init__, SupabaseClient.os_getenv.
      fold url key. rewrite Hu, Hk.
      destruct u as [|a u]; [contradiction|].
      destruct k as [|b k]; [contradiction|]. reflexivity. }
    split; [exact E|]. split.
    + intros c Hc self.
      assert (E' : SupabaseClient.__init__ create_client environ = Return self).
      { rewrite E, Hc. reflexivity. }
      split; [exact E'|]. unfold Server.module_body. rewrite E'. reflexivity.
    + intros e He.
      assert (E' : SupabaseClient.__init__ create_client environ = Raise e).
      { rewrite E, He. reflexivity. }
      split; [exact E'|]. unfold Server.module_body. rewrite E'. reflexivity.
Qed.

Lemma startup_requires_credentials_witness :
  Server.module_body Example.create_client
    {[ "SUPABASE_URL" := "https://ref.supabase.co" ]}
  = Raise (Exception "ValueError" SupabaseClient.missing_credentials)
  /\ Server.module_body Example.create_client
       {[ "SUPABASE_URL" := "https://ref.supabase.co";
          "SUPABASE_SERVICE_ROLE_KEY" := "service-role-key" ]}
     = Return {| Server.mcp :=
                   {| Server.name := "supabase-mcp";
                      Server.tools :=
                        ["read_records"; "create_records";
                         "update_records"; "delete_records"] |};
                 Server.supabase := Example.supabase |}
  /\ Server.module_body Faulty.checking_create_client
       {[ "SUPABASE_URL" := "ref.supabase.co";
          "SUPABASE_SERVICE_ROLE_KEY" := "service-role-key" ]}
     = Raise (Exception "SupabaseException" "Invalid URL").
Proof.
  split; [|split].
  - refine (proj2 (proj1 (startup_requires_credentials Example.create_client
                            {[ "SUPABASE_URL" := "https://ref.supabase.co" ]})
                     _)).
    right. right. left. reflexivity.
  - pose proof (proj2 (startup_requires_credentials Example.create_client
                  {[ "SUPABASE_URL" := "https://ref.supabase.co";
                     "SUPABASE_SERVICE_ROLE_KEY" := "service-role-key" ]})
                  "https://ref.supabase.co" "service-role-key"
                  eq_refl ltac:(discriminate) eq_refl ltac:(discriminate)) as H.
    destruct H as (_ & H & _).
    specialize (H _ eq_refl). cbv zeta in H. destruct H as [_ H].
    exact H.
  - pose proof (proj2 (startup_requires_credentials
                  Faulty.checking_create_client
                  {[ "SUPABASE_URL" := "ref.supabase.co";
                     "SUPABASE_SERVICE_ROLE_KEY" := "service-role-key" ]})
                  "ref.supabase.co" "service-role-key"
                  eq_refl ltac:(discriminate) eq_refl ltac:(discriminate)) as H.
    destruct H as (_ & _ & H).
    exact (proj2 (H _ eq_refl)).
Defined.

(** C8, as stated, fails: with both credentials present and not empty (each
    set to a blank) and an SDK constructor that refuses the URL, the
    constructor raises and so does the module body, so that construction
    does not succeed. *)
Lemma blank_credentials_abort_startup :
  (exists u, Faulty.blank_environ !! "SUPABASE_URL" = Some u /\ u <> "")
  /\ (exists k, Faulty.blank_environ !! "SUPABASE_SERVICE_ROLE_KEY" = Some k
                /\ k <> "")
  /\ SupabaseClient.__init__ Faulty.checking_create_client
       Faulty.blank_environ
     = Raise (Exception "SupabaseException" "Invalid URL")
  /\ Server.module_body Faulty.checking_create_client Faulty.blank_environ
     = Raise (Exception "SupabaseException" "Invalid URL").
Proof.
  split; [|split; [|split]].
  - exists " ". split; [reflexivity|discriminate].
  - exists " ". split; [reflexivity|discriminate].
  - reflexivity.
  - reflexivity.
Qed.

(** * Further properties of the translator and the tools *)

(** ** The composed queries, call by call *)

(** X1. The query of a read is on the given table and consists of the select
    with the column selector as given, then one equality call per entry of
    [filters], then one sort call per entry of [order_by], then the limit
    call when [limit] is given and not zero, then the offset call when
    [offset] is given and not zero: nothing else, and in this order.  A
    limit or offset that is not zero is passed as it is, negative or not. *)
Theorem read_query_call_sequence table columns filters limit offset order_by :
  let q := SupabaseClient.read_query table columns filters limit offset
             order_by in
  q_table q = table
  /\ q_calls q
     = [Select columns]
       ++ map (fun f => Eq f.1 f.2) (items filters)
       ++ map (fun o => Order o.1 (negb (equal_ignoring_case o.2 "asc")))
              (items order_by)
       ++ match limit with
          | Some n => if decide (n = 0%Z) then [] else [Limit n]
          | None => []
          end
       ++ match offset with
          | Some n => if decide (n = 0%Z) then [] else [Offset n]
          | None => []
          end
  /\ length (q_calls q)
     = 1 + length (items filters) + length (items order_by)
       + (if truthy_int limit then 1 else 0)
       + (if truthy_int offset then 1 else 0).
Proof.
  intros q. subst q. rewrite read_query_calls. cbn [q_table q_calls].
  assert (Hl : limit_part limit
               = match limit with
                 | Some n => if decide (n = 0%Z) then [] else [Limit n]
                 | None => []
                 end).
  { destruct limit as [n|]; simpl; [|reflexivity].
    destruct (decide (n = 0%Z)) as [->|Hn]; [reflexivity|].
    apply Z.eqb_neq in Hn. rewrite Hn. reflexivity. }
  assert (Hf : offset_part offset
               = match offset with
                 | Some n => if decide (n = 0%Z) then [] else [Offset n]
                 | None => []
                 end).
  { destruct offset as [n|]; simpl; [|reflexivity].
    destruct (decide (n = 0%Z)) as [->|Hn]; [reflexivity|].
    apply Z.eqb_neq in Hn. rewrite Hn. reflexivity. }
  split; [reflexivity|]. split.
  - rewrite <- Hl, <- Hf. reflexivity.
  - cbn [length]. rewrite !length_app, !length_map.
    assert (length (limit_part limit) = if truthy_int limit then 1 else 0) as ->.
    { destruct limit as [n|]; simpl; [destruct (n =? 0)%Z|]; reflexivity. }
    assert (length (offset_part offset) = if truthy_int offset then 1 else 0)
      as ->.
    { destruct offset as [n|]; simpl; [destruct (n =? 0)%Z|]; reflexivity. }
    lia.
Qed.

(** X2. The query of a create is the insert call alone, with the payload
    as given.  The query of an update or a delete whose [filters] mapping is
    empty is the update call, respectively the delete call, alone.  With
    at least one entry in [filters] no query is composed: the first [eq] is
    called on what [table] returns, before [update] or [delete], and raises
    [AttributeError]. *)
Theorem write_query_call_sequence table updates (f : string * value)
    (fs : dict value) (records : payload) :
  let no_eq :=
    Exception "AttributeError"
      "'SyncRequestBuilder' object has no attribute 'eq'" in
  SupabaseClient.create_query table records
  = {| q_table := table; q_calls := [Insert records] |}
  /\ SupabaseClient.update_query table updates []
     = Return {| q_table := table; q_calls := [Update updates] |}
  /\ SupabaseClient.delete_query table []
     = Return {| q_table := table; q_calls := [Delete] |}
  /\ SupabaseClient.update_query table updates (f :: fs) = Raise no_eq
  /\ SupabaseClient.delete_query table (f :: fs) = Raise no_eq.
Proof.
  intros no_eq. repeat split.
  - apply update_query_filtered.
  - apply delete_query_filtered.
Qed.

(** ** One request per tool call *)

(** X3. Whatever the client and the invocation, a tool asks the client to
    execute at most one query: a read, a create and an update or delete with
    an empty [filters] mapping send exactly one request, the query composed
    from the arguments, whether it succeeds or raises; an update or delete
    with at least one filter sends none.  On a client that records its
    requests the record grows by just that, and recording changes neither
    the tool's result nor the backend state it leaves. *)
Theorem tool_executes_at_most_once {B} (self : SupabaseClient.t B)
    (i : Server.invocation) (seen : list query) (s : B) :
  let traced := with_client self (recording (SupabaseClient.client self)) in
  (Server.call_tool traced i (seen, s)).1 = (Server.call_tool self i s).1
  /\ (Server.call_tool traced i (seen, s)).2
     = (seen ++ requests_of i, (Server.call_tool self i s).2)
  /\ match i with
     | Server.UpdateRecords _ _ (_ :: _) | Server.DeleteRecords _ (_ :: _) =>
         requests_of i = [] /\ (Server.call_tool self i s).2 = s
     | _ =>
         exists q, requests_of i = [q]
                   /\ (Server.call_tool self i s).2
                      = (execute (SupabaseClient.client self) q s).2
     end.
Proof.
  intros traced. subst traced.
  destruct i as [table columns filters limit offset order_by | table records
                | table updates [|f fs] | table [|f fs]];
    cbn [Server.call_tool];
    unfold Server.read_records, Server.create_records, Server.update_records,
      Server.delete_records, SupabaseClient.read_records,
      SupabaseClient.create_records;
    rewrite ?update_filtered_raises, ?delete_filtered_raises;
    unfold SupabaseClient.update_records, SupabaseClient.delete_records;
    rewrite ?update_query_unfiltered, ?delete_query_unfiltered;
    unfold requests_of; cbn [query_of];
    rewrite ?update_query_unfiltered, ?delete_query_unfiltered,
      ?update_query_filtered, ?delete_query_filtered;
    unfold SupabaseClient.run;
    cbn [with_client SupabaseClient.client recording execute fst snd];
    try match goal with
        | |- context [execute (SupabaseClient.client self) ?q s] =>
            destruct (execute (SupabaseClient.client self) q s)
              as [[resp|e] s'] eqn:E
        end; cbn [fst snd isinstance_Exception no_eq_on_table
                  Builder.attribute_error];
    try destruct (isinstance_Exception e); cbn [fst snd];
    rewrite ?app_nil_r; repeat split; eauto;
    (eexists; split; [reflexivity|]; rewrite E; reflexivity).
Qed.

(** X4. A raise outside [Exception], such as [KeyboardInterrupt], is not
    turned into an envelope: each of the four tools raises it unchanged. *)
Theorem tool_lets_base_exceptions_through {B} (supabase : SupabaseClient.t B)
    (i : Server.invocation) (s s' : B) (cls msg : string) :
  Server.translator_call supabase i s = (Raise (BaseException cls msg), s') ->
  Server.call_tool supabase i s = (Raise (BaseException cls msg), s').
Proof.
  intros H.
  destruct i; cbn [Server.call_tool Server.translator_call] in *;
    unfold Server.read_records, Server.create_records,
      Server.update_records, Server.delete_records;
    rewrite H; reflexivity.
Qed.

Lemma tool_lets_base_exceptions_through_witness :
  Server.call_tool Faulty.supabase
    (Server.ReadRecords "users" None None None None None) Example.db0
  = (Raise (BaseException "KeyboardInterrupt" ""), Example.db0).
Proof.
  apply (tool_lets_base_exceptions_through Faulty.supabase
           (Server.ReadRecords "users" None None None None None)).
  reflexivity.
Defined.

(** ** Startup with an SDK that refuses *)

(** X5. When both credentials are present and not empty but the SDK's
    [create_client] raises, the constructor raises the same exception and so
    does the module body: startup aborts before any tool is registered. *)
Theorem startup_propagates_sdk_failure {B}
    (create_client : string -> string -> outcome (Client B))
    (environ : gmap string string) (u k : string) (e : exn) :
  environ !! "SUPABASE_URL" = Some u -> u <> "" ->
  environ !! "SUPABASE_SERVICE_ROLE_KEY" = Some k -> k <> "" ->
  create_client u k = Raise e ->
  SupabaseClient.__init__ create_client environ = Raise e
  /\ Server.module_body create_client environ = Raise e.
Proof.
  intros Hu Hu' Hk Hk' He.
  assert (E : SupabaseClient.__init__ create_client environ = Raise e).
  { unfold SupabaseClient.__init__, SupabaseClient.os_getenv.
    rewrite Hu, Hk.
    destruct u as [|a u]; [contradiction|].
    destruct k as [|b k]; [contradiction|].
    simpl. simpl in He. rewrite He. reflexivity. }
  split; [exact E|]. unfold Server.module_body. rewrite E. reflexivity.
Qed.

Lemma startup_propagates_sdk_failure_witness :
  Server.module_body Faulty.create_client
    {[ "SUPABASE_URL" := "https://ref.supabase.co";
       "SUPABASE_SERVICE_ROLE_KEY" := "not-a-key" ]}
  = Raise (Exception "SupabaseException" "Invalid API key").
Proof.
  refine (proj2 (startup_propagates_sdk_failure Faulty.create_client
                   {[ "SUPABASE_URL" := "https://ref.supabase.co";
                      "SUPABASE_SERVICE_ROLE_KEY" := "not-a-key" ]}
                   "https://ref.supabase.co" "not-a-key" _ _ _ _ _ _));
    first [reflexivity | discriminate].
Defined.

(** ** The directions that sort ascending *)

Lemma same_letter_a (x : ascii) :
  same_letter x "a" = true <-> x = "a"%char \/ x = "A"%char.
Proof.
  destruct x as [[] [] [] [] [] [] [] []]; vm_compute; split;
    first [discriminate | intros [H|H]; discriminate H | auto].
Qed.

Lemma same_letter_s (x : ascii) :
  same_letter x "s" = true <-> x = "s"%char \/ x = "S"%char.
Proof.
  destruct x as [[] [] [] [] [] [] [] []]; vm_compute; split;
    first [discriminate | intros [H|H]; discriminate H | auto].
Qed.

Lemma same_letter_c (x : ascii) :
  same_letter x "c" = true <-> x = "c"%char \/ x = "C"%char.
Proof.
  destruct x as [[] [] [] [] [] [] [] []]; vm_compute; split;
    first [discriminate | intros [H|H]; discriminate H | auto].
Qed.

Lemma lower_asc_spellings (d : string) :
  lower d = "asc" <-> In d asc_spellings.
Proof.
  rewrite lower_asc. split.
  - destruct d as [|x [|y [|z [|w d]]]]; cbn [equal_ignoring_case];
      rewrite ?andb_true_iff; try (intros H; decompose [and] H; discriminate).
    rewrite same_letter_a, same_letter_s, same_letter_c.
    intros ([-> | ->] & [-> | ->] & [-> | ->] & _); simpl; tauto.
  - intros H. simpl in H.
    repeat (destruct H as [<- | H]; [reflexivity|]). contradiction.
Qed.

(** X6. A one-entry [order_by] gives an ascending sort call exactly when the
    direction is one of the eight spellings of "asc" in upper and lower
    case; every other string, such as "ascending", "up", the empty string
    or "asc" with a space, gives a descending one. *)
Theorem ascending_only_for_asc_spellings table columns filters limit offset
    (column direction : string) :
  let q := SupabaseClient.read_query table columns filters limit offset
             (Some [(column, direction)]) in
  (In direction asc_spellings -> order_calls (q_calls q) = [(column, false)])
  /\ (~ In direction asc_spellings -> order_calls (q_calls q) = [(column, true)]).
Proof.
  intros q. subst q. rewrite read_query_order_calls.
  unfold read_orders. cbn [items default id map fst snd].
  split; intros H.
  - apply lower_asc_spellings, lower_asc in H. rewrite H. reflexivity.
  - destruct (equal_ignoring_case direction "asc") eqn:E; [|reflexivity].
    exfalso. apply H, lower_asc_spellings, lower_asc, E.
Qed.

Lemma ascending_only_for_asc_spellings_witness :
  order_calls
    (q_calls (SupabaseClient.read_query "users" "*" None None None
                (Some [("created_at", "aSC")]))) = [("created_at", false)]
  /\ order_calls
       (q_calls (SupabaseClient.read_query "users" "*" None None None
                   (Some [("created_at", "ascending")])))
     = [("created_at", true)].
Proof.
  split.
  - apply (proj1 (ascending_only_for_asc_spellings "users" "*" None None None
                    "created_at" "aSC")).
    simpl. tauto.
  - apply (proj2 (ascending_only_for_asc_spellings "users" "*" None None None
                    "created_at" "ascending")).
    simpl. intros H.
    repeat (destruct H as [H|H]; [discriminate H|]). exact H.
Defined.

(** ** Writes with and without filters *)

(** X7. For any client and any backend state, the update tool and the
    delete tool called with at least one filter return the error envelope
    of the [AttributeError] raised by the first [eq], and leave the backend
    state as it was: nothing is updated or deleted. *)
Theorem filtered_write_is_refused {B} (supabase : SupabaseClient.t B)
    table updates (f : string * value) (fs : dict value) (s : B) :
  let refused : gmap string pyval :=
    {[ "error" := PStr "'SyncRequestBuilder' object has no attribute 'eq'";
       "records" := PList [] ]} in
  Server.update_records supabase table updates (f :: fs) s
  = (Return refused, s)
  /\ Server.delete_records supabase table (f :: fs) s = (Return refused, s).
Proof.
  intros refused. unfold Server.update_records, Server.delete_records.
  rewrite update_filtered_raises, delete_filtered_raises.
  split; reflexivity.
Qed.

(** X8. On the reference backend a delete returns only when its [filters]
    mapping is empty, and then it has emptied the table: a read of the same
    table that follows and returns has no rows to return, whatever its
    filters, columns, sort, limit and offset. *)
Theorem delete_then_read_is_empty le assign violation table (fs : dict value)
    columns filters limit offset order_by (s s1 s2 : db)
    (deleted out : list record) :
  let R := ref_supabase le assign violation in
  SupabaseClient.delete_records R table fs s = (Return deleted, s1) ->
  SupabaseClient.read_records R table columns filters limit offset order_by s1
  = (Return out, s2) ->
  fs = [] /\ tables s !! table = Some deleted /\ out = [].
Proof.
  intros R Hdel Hread. subst R.
  destruct fs as [|f fs];
    [|rewrite delete_filtered_raises in Hdel; discriminate].
  rewrite ref_delete_unfiltered in Hdel. cbv zeta in Hdel.
  destruct (tables s !! table) as [rows|]; [|discriminate].
  injection Hdel as <- <-.
  rewrite ref_read_records in Hread. cbv zeta in Hread.
  cbn [tables] in Hread. rewrite lookup_insert_eq in Hread.
  destruct (negative (effective limit) || negative (effective offset));
    [discriminate|].
  injection Hread as <- _.
  repeat split.
  cbn [List.filter sort_rows foldr]. unfold window.
  destruct (effective limit), (effective offset);
    rewrite ?drop_nil, ?take_nil; reflexivity.
Qed.

Lemma delete_then_read_is_empty_witness :
  let s1 := (SupabaseClient.delete_records Example.supabase "users" []
               Example.db0).2 in
  SupabaseClient.delete_records Example.supabase "users" [] Example.db0
  = (Return Example.users, s1)
  /\ (SupabaseClient.read_records Example.supabase "users" "*"
        (Some [("name", VStr "Bob")]) None None None s1).1 = Return [].
Proof.
  intros s1.
  assert (Hd : SupabaseClient.delete_records Example.supabase "users" []
                 Example.db0 = (Return Example.users, s1)).
  { vm_compute. reflexivity. }
  split; [exact Hd|].
  destruct (SupabaseClient.read_records Example.supabase "users" "*"
              (Some [("name", VStr "Bob")]) None None None s1)
    as [[out|e] s2] eqn:Er.
  - cbn [fst]. f_equal.
    exact (proj2 (proj2 (delete_then_read_is_empty Example.le_int
             Example.assign_id Example.name_required "users" [] "*"
             (Some [("name", VStr "Bob")]) None None None Example.db0 s1 s2
             _ out Hd Er))).
  - exfalso. vm_compute in Er. discriminate Er.
Defined.

(** X9. On the reference backend a read that returns gives as many rows as
    pass the filters, less the offset, capped by the limit when the limit is
    not zero; a limit of zero, like no limit, caps nothing. *)
Theorem read_row_count le assign violation table columns filters limit offset
    order_by (s s' : db) (out : list record) :
  SupabaseClient.read_records (ref_supabase le assign violation) table columns
    filters limit offset order_by s = (Return out, s') ->
  exists rows,
    tables s !! table = Some rows
    /\ length out
       = expected_count limit offset
           (length (List.filter (matches (items filters)) rows)).
Proof.
  intros Hrun. rewrite ref_read_records in Hrun. cbv zeta in Hrun.
  destruct (tables s !! table) as [rows|]; [|discriminate].
  destruct (negative (effective limit) || negative (effective offset)) eqn:Hneg;
    [discriminate|].
  injection Hrun as <- _. exists rows. split; [reflexivity|].
  rewrite length_map.
  set (sorted := sort_rows (row_leb le (read_orders order_by))
                   (List.filter (matches (items filters)) rows)).
  assert (Hlen : length sorted
                 = length (List.filter (matches (items filters)) rows)).
  { apply Permutation_length, sort_rows_perm. }
  rewrite <- Hlen. clear Hlen.
  apply orb_false_iff in Hneg as [Hl Ho].
  unfold window, expected_count, effective in *.
  destruct limit as [n|], offset as [m|]; cbn [truthy_int default] in *;
    repeat match goal with
           | |- context [(?k =? 0)%Z] => destruct (Z.eqb_spec k 0); subst
           | H : context [(?k =? 0)%Z] |- _ => destruct (Z.eqb_spec k 0); subst
           end; cbn [negb negative] in *;
    rewrite ?length_take, ?length_drop; simpl; lia.
Qed.

Lemma read_row_count_witness :
  length [Example.user 2 "Bob" 30; Example.user 3 "Carol" 20] = 2.
Proof.
  destruct (read_row_count Example.le_int Example.assign_id
              Example.name_required "users" "*" None (Some 2%Z) (Some 1%Z) None
              Example.db0
              (logged (SupabaseClient.read_query "users" "*" None (Some 2%Z)
                         (Some 1%Z) None) Example.db0)
              [Example.user 2 "Bob" 30; Example.user 3 "Carol" 20])
    as [rows [Hrows Hlen]].
  - vm_compute. reflexivity.
  - injection Hrows as <-. exact Hlen.
Defined.
